(** * banana-app: the request/response pipeline of [app.py]

    A shallow embedding of [process_images] and [download_image] from
    [src/app.py], with the behaviour of the libraries the script calls
    (Pillow, NumPy, google-genai, the operating system) supplied by an
    environment record, and the properties of the pipeline proved over it.

    Python strings are kept as UTF-8 byte strings; Python integers are [Z];
    the temporary directory is a finite map from the serial number of a
    temporary file to its content; the result store is the single file
    [generated_composite.png].

    Not modelled: what is printed, the progress reports, and the first
    prompt of lines 75-90, which is built and never sent. Creating a
    temporary file is taken to succeed. *)

From Stdlib Require Import ZArith String Ascii List Lia.
From stdpp Require Import gmap strings list pretty.

Local Open Scope string_scope.
Local Open Scope list_scope.
Local Open Scope Z_scope.

(** ** Python values and exceptions *)

Definition bytes := list Byte.byte.

(** An exception: its class name and [str(e)]. *)
Record exn := Exception { exn_class : string; exn_str : string }.

Inductive result (A : Type) : Type :=
| Ok (a : A)
| Err (e : exn).
Arguments Ok {A} a.
Arguments Err {A} e.

Definition nl : string := String "010"%char "".

(** [str(x)] for a value that is an integer or [None]. *)
Definition py_str_int (x : option Z) : string :=
  match x with
  | Some z => pretty z
  | None => "None"
  end.

(** [str(x)] for a value that is a string or [None]. *)
Definition py_str_opt (x : option string) : string :=
  match x with
  | Some s => s
  | None => "None"
  end.

Definition py_str_bool (b : bool) : string := if b then "True" else "False".

(** A byte of the form 10xxxxxx continues a UTF-8 code point. *)
Definition is_continuation (c : ascii) : bool :=
  match c with
  | Ascii _ _ _ _ _ _ false true => true
  | _ => false
  end.

(** [s[:n]]: Python slices a string by code points. *)
Fixpoint py_slice_to (n : nat) (s : string) : string :=
  match s with
  | EmptyString => EmptyString
  | String c s' =>
      if is_continuation c then String c (py_slice_to n s')
      else match n with
           | O => EmptyString
           | S n' => String c (py_slice_to n' s')
           end
  end.

(** ["\n".join(l)] *)
Definition join_lines (l : list string) : string := String.concat nl l.

(** [l[-n:]] *)
Definition last_n {A} (n : nat) (l : list A) : list A :=
  drop (length l - n) l.

(** ** Images (Pillow) *)

(** A decoded image: [mode] as Pillow names it, [size] as (width, height),
    [format] the file format it was read from, the palette of a "P" image,
    and the pixels in row-major order, one list of band values per pixel. *)
Record Image := {
  mode : string;
  im_size : nat * nat;
  format : option string;
  palette : list (list Z);
  pixels : list (list Z)
}.

(** [str(image.size)] *)
Definition size_str (im : Image) : string :=
  "(" +:+ pretty (fst (im_size im)) +:+ ", " +:+ pretty (snd (im_size im)) +:+ ")".

(** [x in (a, b, ...)] on strings. *)
Definition str_in (x : string) (l : list string) : bool :=
  existsb (String.eqb x) l.

(** [Image.new(mode, size, color)] *)
Definition Image_new (m : string) (sz : nat * nat) (color : list Z) : Image :=
  {| mode := m; im_size := sz; format := None; palette := [];
     pixels := replicate (fst sz * snd sz)%nat color |}.

(** [image.split()[-1]]: the last band of every pixel. *)
Definition last_band (im : Image) : list Z :=
  map (fun p => List.last p 0) (pixels im).

(** Pillow's [DIV255] and [BLEND8] (ImagingUtils.h), on 8-bit bands; the
    result is stored in a [UINT8]. *)
Definition DIV255 (a : Z) : Z :=
  let tmp := a + 128 in
  Z.shiftr (Z.shiftr tmp 8 + tmp) 8.

Definition BLEND8 (mask in1 in2 : Z) : Z :=
  DIV255 (in1 * (255 - mask) + in2 * mask) mod 256.

Definition blend_pixel (a : Z) (out inp : list Z) : list Z :=
  zip_with (BLEND8 a) out inp.

(** The pixel loop of [paste_mask_L] (Paste.c): every destination pixel is
    blended with the source pixel at the same position, weighted by the
    mask. *)
Fixpoint paste_pixels (out inp : list (list Z)) (mask : list Z) : list (list Z) :=
  match out, inp, mask with
  | o :: out', i :: inp', a :: mask' =>
      blend_pixel a o i :: paste_pixels out' inp' mask'
  | _, _, _ => out
  end.

(** [dst.paste(src, mask=mask)] for images of one size. *)
Definition paste_mask (dst src : Image) (mask : list Z) : Image :=
  {| mode := mode dst; im_size := im_size dst; format := format dst;
     palette := palette dst;
     pixels := paste_pixels (pixels dst) (pixels src) mask |}.

(** The three colour bytes Pillow copies from a 32-bit source pixel into an
    "RGB" destination when no conversion is made. *)
Definition rgb_bytes (m : string) (p : list Z) : list Z :=
  if String.eqb m "LA" then
    let l := List.hd 0 p in [l; l; l]
  else take 3 p.

Fixpoint copy_pixels (out inp : list (list Z)) : list (list Z) :=
  match out, inp with
  | _ :: out', i :: inp' => i :: copy_pixels out' inp'
  | _, _ => out
  end.

(** ** NumPy arrays *)

Record ndarray := { shape : list nat; flat : list Z }.

(** [a.size] *)
Definition arr_size (a : ndarray) : nat := length (flat a).

(** ** The inputs of [process_images] *)

(** An image value handed over by the UI: a NumPy array or a Pillow image. *)
Inductive PyImage :=
| NdArray (a : ndarray)
| Pil (im : Image).

(** A box dict; a coordinate is [None] when its key is absent
    ([box.get] returns [None]). *)
Record Box := { xmin : option Z; ymin : option Z; xmax : option Z; ymax : option Z }.

(** The annotation dict; a field is [None] when its key is absent. *)
Record Annotation := { image : option PyImage; boxes : option (list Box) }.

(** ** The generation response (google-genai) *)

(** The fields are optional, as the library declares them: [blob.data],
    [candidate.content] and [content.parts] are [None] when the service
    sends nothing for them. *)
Record Blob := { data : option bytes; mime_type : option string }.
Record Part := { text : option string; inline_data : option Blob }.
Record Content := { parts : option (list Part) }.
Record Candidate := { content : option Content }.
Record Response := { candidates : option (list Candidate) }.

(** One call of [client.models.generate_content]. *)
Record Request := {
  req_model : string;
  req_prompt : string;
  req_image1 : Image;
  req_image2 : Image
}.

(** ** The environment: what the libraries and the system answer *)

Record Env := {
  (** [os.getenv("GOOGLE_API_KEY")] *)
  GOOGLE_API_KEY : option string;
  (** [os.path.dirname(os.path.abspath(__file__))] *)
  output_dir : string;
  (** [genai.Client(api_key=...)]: [None] when the constructor succeeds *)
  genai_Client : string -> option exn;
  (** [bool(a)] for an array without elements (NumPy returns [False] with a
      deprecation warning, or raises, by version) *)
  numpy_empty_truth : result bool;
  (** [Image.fromarray(a.astype('uint8'))] *)
  Image_fromarray : ndarray -> result Image;
  (** the PNG encoder behind [image.save(path, format='PNG', ...)], by
      [compress_level] when one is given *)
  png_encode : option nat -> Image -> result bytes;
  (** [Image.open] on encoded data *)
  Image_open : bytes -> result Image;
  (** [image.convert(mode)] *)
  Image_convert : string -> Image -> result Image;
  (** the remote generation endpoint *)
  generate_content : Request -> result Response;
  (** [os.unlink] on an existing temporary file: [None] when it succeeds *)
  unlink_error : nat -> option exn
}.

(** ** The world the script acts on *)

Record World := {
  (** the temporary files that exist, by serial number *)
  tmp_files : gmap nat bytes;
  (** the content of [generated_composite.png], when the file exists *)
  result_store : option bytes;
  (** the calls issued to the generation service, oldest first *)
  api_calls : list Request
}.

(** The name of the temporary file with serial number [n]. *)
Definition tmp_name (n : nat) : string := "/tmp/tmp" +:+ pretty n +:+ ".png".

(** What a Python function hands back to its caller. *)
Inductive pyvalue :=
| PyNone
| PyImg (im : Image)
| PyPath (p : string).

(** How a block of statements ends: it falls through to the next statement,
    executes a [return] (with a value of type [R]), or lets an exception
    propagate. *)
Inductive completion (R A : Type) : Type :=
| Normal (a : A)
| Return (r : R)
| Raise (e : exn).
Arguments Normal {R A} a.
Arguments Return {R A} r.
Arguments Raise {R A} e.

(** The mutable state of one invocation: the world and the local list
    [debug_info]. *)
Record Frame := { world : World; debug_info : list string }.

Definition py (R A : Type) : Type := Frame -> completion R A * Frame.

#[global] Instance py_ret {R} : MRet (py R) := fun A a f => (Normal a, f).

#[global] Instance py_bind {R} : MBind (py R) := fun A B k m f =>
  match m f with
  | (Normal a, f') => k a f'
  | (Return r, f') => (Return r, f')
  | (Raise e, f') => (Raise e, f')
  end.

Definition raise {R A} (e : exn) : py R A := fun f => (Raise e, f).

(** [return r] *)
Definition return_ {R A} (r : R) : py R A := fun f => (Return r, f).

Definition lift {R A} (r : result A) : py R A :=
  match r with
  | Ok a => mret a
  | Err e => raise e
  end.

(** [debug_info.append(s)] *)
Definition debug_append {R} (s : string) : py R unit := fun f =>
  (Normal tt, {| world := world f; debug_info := debug_info f ++ [s] |}).

Definition modify_world {R} (g : World -> World) : py R unit := fun f =>
  (Normal tt, {| world := g (world f); debug_info := debug_info f |}).

(** [try: body except Exception as e: handler(e)] *)
Definition try_except {R A} (body : py R A) (handler : exn -> py R A) : py R A :=
  fun f =>
    match body f with
    | (Raise e, f') => handler e f'
    | other => other
    end.

(** [try: body finally: fin]; a [fin] that ends normally leaves the
    completion of [body] in place. *)
Definition try_finally {R A} (body : py R A) (fin : py R unit) : py R A :=
  fun f =>
    let (c, f') := body f in
    match fin f' with
    | (Normal _, f'') => (c, f'')
    | (Return r, f'') => (Return r, f'')
    | (Raise e, f'') => (Raise e, f'')
    end.

(** Running a function body from a world, with an empty [debug_info]. *)
Definition run {R A} (body : py R A) (w : World) : completion R A * World :=
  let (c, f) := body {| world := w; debug_info := [] |} in (c, world f).

(** ** Operations on the world *)

(** [tempfile.NamedTemporaryFile(suffix=".png", delete=False)]: a new, empty
    file under a name not in use. *)
Definition create_temp {R} : py R nat := fun f =>
  let w := world f in
  let n := fresh (dom (tmp_files w)) in
  (Normal n,
   {| world := {| tmp_files := <[n := []]> (tmp_files w);
                  result_store := result_store w;
                  api_calls := api_calls w |};
      debug_info := debug_info f |}).

Definition write_temp {R} (n : nat) (b : bytes) : py R unit :=
  modify_world (fun w =>
    {| tmp_files := <[n := b]> (tmp_files w);
       result_store := result_store w;
       api_calls := api_calls w |}).

Definition write_store {R} (b : bytes) : py R unit :=
  modify_world (fun w =>
    {| tmp_files := tmp_files w;
       result_store := Some b;
       api_calls := api_calls w |}).

Definition FileNotFoundError (p : string) : exn :=
  Exception "FileNotFoundError"
    ("[Errno 2] No such file or directory: '" +:+ p +:+ "'").

Section WithEnv.

Variable E : Env.

(** [os.unlink(tmp_name n)] *)
Definition os_unlink {R} (n : nat) : py R unit := fun f =>
  match tmp_files (world f) !! n with
  | None => (Raise (FileNotFoundError (tmp_name n)), f)
  | Some _ =>
      match unlink_error E n with
      | Some e => (Raise e, f)
      | None =>
          modify_world (fun w =>
            {| tmp_files := delete n (tmp_files w);
               result_store := result_store w;
               api_calls := api_calls w |}) f
      end
  end.

(** [client.models.generate_content(model=..., contents=[...])] *)
Definition call_generate_content {R} (req : Request) : py R Response :=
  modify_world (fun w =>
    {| tmp_files := tmp_files w;
       result_store := result_store w;
       api_calls := api_calls w ++ [req] |});;
  lift (generate_content E req).

(** [os.path.join(output_dir, "generated_composite.png")] *)
Definition composite_path : string :=
  output_dir E +:+ "/" +:+ "generated_composite.png".

(** ** Truth values (line 36) *)

(** [bool(annotated_image)]: [None] and the empty dict are falsy. *)
Definition truthy_annotation (a : option Annotation) : bool :=
  match a with
  | None => false
  | Some d =>
      match image d, boxes d with
      | None, None => false
      | _, _ => true
      end
  end.

Definition ambiguous_truth : exn :=
  Exception "ValueError"
    "The truth value of an array with more than one element is ambiguous. Use a.any() or a.all()".

(** [bool(second_image)]: NumPy refuses to give an array of several elements
    a truth value. *)
Definition truthy_image (s : option PyImage) : result bool :=
  match s with
  | None => Ok false
  | Some (Pil _) => Ok true
  | Some (NdArray a) =>
      match flat a with
      | [] => numpy_empty_truth E
      | [x] => Ok (negb (x =? 0))
      | _ :: _ :: _ => Err ambiguous_truth
      end
  end.

(** ** Outbound normalisation (lines 241-254) *)

(** [dst.paste(src)] without a mask, [dst] an "RGB" image: the source is
    converted unless its pixels already hold the colour bytes. *)
Definition paste_nomask (dst src : Image) : result Image :=
  let copy (px : list (list Z)) :=
    {| mode := mode dst; im_size := im_size dst; format := format dst;
       palette := palette dst; pixels := copy_pixels (pixels dst) px |} in
  if String.eqb (mode src) (mode dst) then Ok (copy (pixels src))
  else if str_in (mode src) ["LA"; "RGBA"; "RGBa"] then
    Ok (copy (map (rgb_bytes (mode src)) (pixels src)))
  else
    match Image_convert E (mode dst) src with
    | Ok src' => Ok (copy (pixels src'))
    | Err e => Err e
    end.

Definition white : list Z := [255; 255; 255].

Definition normalize_output (image0 : Image) : result Image :=
  if str_in (mode image0) ["RGBA"; "P"; "LA"] then
    match (if str_in (mode image0) ["P"; "LA"]
           then Image_convert E "RGBA" image0 else Ok image0) with
    | Err e => Err e
    | Ok image1 =>
        let rgb_image := Image_new "RGB" (im_size image1) white in
        if String.eqb (mode image1) "RGBA"
        then Ok (paste_mask rgb_image image1 (last_band image1))
        else paste_nomask rgb_image image1
    end
  else if negb (String.eqb (mode image0) "RGB") then
    Image_convert E "RGB" image0
  else Ok image0.

End WithEnv.

(** ** The prompt (lines 149-167) *)

(** The f-string template, with the four interpolated values as
    arguments. *)
Definition prompt_template (x1 y1 x2 y2 : string) : string :=
  join_lines [
    "Create a seamless composite image by taking the central object from the second image and naturally integrating it into the first image within the specified rectangular area.";
    "";
    "PLACEMENT COORDINATES (for internal use only): Place the object within bounding box coordinates:";
    "- Top-left: (" +:+ x1 +:+ ", " +:+ y1 +:+ ")  ";
    "- Bottom-right: (" +:+ x2 +:+ ", " +:+ y2 +:+ ")";
    "";
    "CRITICAL REQUIREMENTS:";
    "- DO NOT draw, show, or display any bounding boxes, borders, rectangles, or coordinate markers on the final image";
    "- DO NOT include any text, numbers, or coordinate labels on the image";
    "- Create a clean, natural composite without any visible editing marks or annotations";
    "- Maintain realistic lighting and shadows that match the first image";
    "- Ensure proper perspective and scaling of the inserted object  ";
    "- Blend the object naturally with the background";
    "- Preserve the style and aesthetic of the original first image";
    "- Pay attention to color temperature and lighting consistency";
    "";
    "OUTPUT FORMAT: Generate the result as a PNG image.";
    "";
    "Create a photorealistic composite image that looks completely natural and professionally edited, with no visible signs of digital manipulation or coordinate markings."
  ].

Definition enhanced_prompt (box : Box) : string :=
  prompt_template (py_str_int (xmin box)) (py_str_int (ymin box))
                  (py_str_int (xmax box)) (py_str_int (ymax box)).

(** ** [process_images] (lines 25-314) *)

Definition retval : Type := pyvalue * string.

Definition debug_suffix (trace : list string) : string :=
  nl +:+ nl +:+ "Debug Info:" +:+ nl +:+ join_lines trace.

(** [f"{msg}\n\nDebug Info:\n" + "\n".join(trace) if debug_enabled else msg] *)
Definition status_with_debug (debug_enabled : bool) (msg : string)
    (trace : list string) : string :=
  if debug_enabled then msg +:+ debug_suffix trace else msg.

(** [return None, f"{error_msg}\n\nDebug Info:\n" + "\n".join(debug_info)
    if debug_enabled else error_msg] *)
Definition return_error {A} (debug_enabled : bool) (error_msg : string)
  : py retval A := fun f =>
  (Return (PyNone, status_with_debug debug_enabled error_msg (debug_info f)), f).

(** The three statements of a validation failure. *)
Definition error_exit {A} (debug_enabled : bool) (error_msg : string)
  : py retval A :=
  debug_append ("❌ " +:+ error_msg);;
  return_error debug_enabled error_msg.

(** Lines 220-223. *)
Definition return_text {A} (debug_enabled : bool) (t : string) : py retval A :=
  fun f =>
    let final_status := "Gemini Response (Text Only): " +:+ t in
    (Return (PyNone, status_with_debug debug_enabled final_status (debug_info f)), f).

Definition success_status (original_format : string) : string :=
  "✅ Clean composite image generated successfully!" +:+ nl +:+
  "📁 Original format: " +:+ original_format +:+ " → Converted to PNG" +:+ nl +:+
  "� Saved as: generated_composite.png" +:+ nl +:+
  "📌 No bounding box markings included".

(** Lines 275-280. *)
Definition return_success {A} (debug_enabled : bool) (im : Image)
    (original_format : string) : py retval A := fun f =>
  let final_status := success_status original_format in
  (Return (PyImg im,
           status_with_debug debug_enabled final_status (last_n 8 (debug_info f))), f).

Definition is_not_None {A} (o : option A) : bool :=
  match o with Some _ => true | None => false end.

Definition no_image_msg : string := "No image was generated. Please try again.".

(** The exception of [None.name]. *)
Definition no_attribute (name : string) : exn :=
  Exception "AttributeError"
    ("'NoneType' object has no attribute '" +:+ name +:+ "'").

(** The exception of [len(None)]. *)
Definition no_len : exn :=
  Exception "TypeError" "object of type 'NoneType' has no len()".

(** [candidate.content.parts] as [len] takes it (line 202): the attribute
    of a missing content cannot be read, and a missing list has no
    length. *)
Definition content_parts (candidate : Candidate) : result (list Part) :=
  match content candidate with
  | None => Err (no_attribute "parts")
  | Some c =>
      match parts c with
      | Some ps => Ok ps
      | None => Err no_len
      end
  end.

(** [part.inline_data.data] as [len] takes it (line 228). *)
Definition blob_data (blob : Blob) : result bytes :=
  match data blob with
  | Some b => Ok b
  | None => Err no_len
  end.

Section Pipeline.

Variable E : Env.
Variable debug_enabled : bool.

(** [Image.open(composite_path)] *)
Definition open_composite : py retval Image := fun f =>
  match result_store (world f) with
  | Some b => lift (Image_open E b) f
  | None => (Raise (FileNotFoundError (composite_path E)), f)
  end.

(** The [try] statement of lines 230-285, on the bytes of the part. *)
Definition decode_inline_data (image_data : bytes) : py retval unit :=
  try_except
    (image0 ← lift (Image_open E image_data);
     debug_append ("✅ Image created: " +:+ size_str image0 +:+ ", mode: " +:+ mode image0);;
     let original_format := py_str_opt (format image0) in
     debug_append ("📋 Original format from Gemini: " +:+ original_format);;
     image1 ← lift (normalize_output E image0);
     debug_append ("✅ Converted to mode: " +:+ mode image1);;
     encoded ← lift (png_encode E (Some 1%nat) image1);
     write_store encoded;;
     debug_append ("💾 Composite image saved as PNG: " +:+ composite_path E);;
     saved_image ← open_composite;
     debug_append ("🔍 Saved file format: " +:+ py_str_opt (format saved_image));;
     return_success debug_enabled image1 original_format)
    (fun img_error =>
       let error_msg := "Failed to process generated image: " +:+ exn_str img_error in
       error_exit debug_enabled error_msg).

(** The [elif has_inline_data] branch (lines 225-285); the length of the
    data is taken at line 228, before the [try] of line 230. *)
Definition handle_inline_data (blob : Blob) : py retval unit :=
  image_data ← lift (blob_data blob);
  decode_inline_data image_data.

(** The loop over [candidate.content.parts] (lines 208-285), from index
    [i]. *)
Fixpoint scan_parts (i : nat) (ps : list Part) : py retval unit :=
  match ps with
  | [] => mret tt
  | part :: rest =>
      let has_text := is_not_None (text part) in
      let has_inline_data := is_not_None (inline_data part) in
      debug_append ("📋 Part " +:+ pretty i +:+ ": text=" +:+ py_str_bool has_text
                    +:+ ", inline_data=" +:+ py_str_bool has_inline_data);;
      match text part with
      | Some t =>
          let text_preview :=
            if String.eqb t "" then "None" else py_slice_to 200 t in
          debug_append ("📄 Text response: " +:+ text_preview +:+ "...");;
          return_text debug_enabled t
      | None =>
          match inline_data part with
          | Some blob => handle_inline_data blob
          | None => mret tt
          end
      end;;
      scan_parts (S i) rest
  end.

(** Lines 196-289: what is done with the response. *)
Definition interpret_response (response : Response) : py retval unit :=
  match candidates response with
  | None | Some [] => error_exit debug_enabled "No response candidates received"
  | Some (candidate :: _) =>
      ps ← lift (content_parts candidate);
      debug_append ("📊 Processing candidate with "
                    +:+ pretty (length ps) +:+ " parts");;
      scan_parts 0 ps;;
      error_exit debug_enabled no_image_msg
  end.

(** The body of the inner [try] (lines 173-289). *)
Definition call_and_interpret (prompt : string) (first_img_pil second_img_pil : Image)
  : py retval unit :=
  response ← call_generate_content E
    {| req_model := "gemini-2.5-flash-image-preview";
       req_prompt := prompt;
       req_image1 := first_img_pil;
       req_image2 := second_img_pil |};
  debug_append "✅ Received response from Gemini";;
  debug_append ("🔍 Response candidates count: "
                +:+ pretty (length (default [] (candidates response))));;
  interpret_response response.

(** The [finally] block (lines 298-307); both paths are bound when it runs,
    so both tests on [locals()] succeed. *)
Definition cleanup (first_img_path second_img_path : nat) : py retval unit :=
  try_except
    (os_unlink E first_img_path;;
     os_unlink E second_img_path;;
     debug_append "🧹 Temporary files cleaned up")
    (fun _ => mret tt).

(** [x if isinstance(x, np.ndarray) ... else x] (lines 121-124, 135-138). *)
Definition to_pil (x : PyImage) : py retval Image :=
  match x with
  | NdArray a => lift (Image_fromarray E a)
  | Pil im => mret im
  end.

(** The [with tempfile.NamedTemporaryFile(...)] blocks (lines 127-130,
    141-144): the file exists from the moment it is created. *)
Definition save_to_temp (label : string) (im : Image) : py retval nat :=
  path ← create_temp;
  encoded ← lift (png_encode E None im);
  write_temp path encoded;;
  debug_append ("💾 " +:+ label +:+ " image saved: " +:+ tmp_name path);;
  mret path.

Definition KeyError (k : string) : exn :=
  Exception "KeyError" ("'" +:+ k +:+ "'").

Definition missing_annotation_msg : string :=
  "Please provide the first image and draw an annotation box".
Definition missing_second_msg : string := "Please provide the second image".
Definition missing_box_msg : string :=
  "Please draw an annotation box on the first image".
Definition no_api_key_msg : string :=
  "❌ No Google API key found in environment variables".

(** [isinstance(second_image, np.ndarray) and second_image.size == 0] *)
Definition empty_array (x : PyImage) : bool :=
  match x with
  | NdArray a => Nat.eqb (arr_size a) 0
  | Pil _ => false
  end.

(** Lines 97-296, once both inputs and the box are in hand. *)
Definition generate (ann : Annotation) (second : PyImage) (box : Box)
  : py retval unit :=
  match GOOGLE_API_KEY E with
  | None | Some "" =>
      debug_append no_api_key_msg;;
      return_error debug_enabled no_api_key_msg
  | Some api_key =>
      debug_append "✅ Google API key found";;
      try_except
        (match genai_Client E api_key with
         | Some client_error => raise client_error
         | None => mret tt
         end;;
         debug_append "✅ Gemini client initialized")
        (fun client_error =>
           error_exit debug_enabled
             ("Failed to initialize Gemini client: " +:+ exn_str client_error));;
      first_img_pil ←
        match image ann with
        | Some first_img => to_pil first_img
        | None => raise (KeyError "image")
        end;
      first_img_path ← save_to_temp "First" first_img_pil;
      second_img_pil ← to_pil second;
      second_img_path ← save_to_temp "Second" second_img_pil;
      debug_append "📝 Enhanced prompt created";;
      try_finally
        (try_except
           (call_and_interpret (enhanced_prompt box) first_img_pil second_img_pil)
           (fun api_error =>
              error_exit debug_enabled ("Gemini API error: " +:+ exn_str api_error)))
        (cleanup first_img_path second_img_path)
  end.

(** The body of the outer [try] (lines 46-296). *)
Definition process_body (annotated_image : option Annotation)
    (second_image : option PyImage) : py retval unit :=
  match annotated_image with
  | None => error_exit debug_enabled missing_annotation_msg
  | Some ann =>
      match second_image with
      | None => error_exit debug_enabled missing_second_msg
      | Some second =>
          if empty_array second then error_exit debug_enabled missing_second_msg
          else
            match boxes ann with
            | None | Some [] => error_exit debug_enabled missing_box_msg
            | Some (box :: _) =>
                debug_append ("📐 Bounding box: (" +:+ py_str_int (xmin box) +:+ ", "
                              +:+ py_str_int (ymin box) +:+ ") to ("
                              +:+ py_str_int (xmax box) +:+ ", "
                              +:+ py_str_int (ymax box) +:+ ")");;
                debug_append "📝 Generated prompt for Nano Banana";;
                generate ann second box
            end
      end
  end.

Definition no_images_msg : string :=
  "🚀 DEBUG: Function called but no images provided".

(** [not annotated_image and not second_image] (line 36); the second
    operand is evaluated only when the first is true. *)
Definition both_falsy (annotated_image : option Annotation)
    (second_image : option PyImage) : result bool :=
  if negb (truthy_annotation annotated_image) then
    match truthy_image E second_image with
    | Ok b => Ok (negb b)
    | Err e => Err e
    end
  else Ok false.

Definition process_images_body (annotated_image : option Annotation)
    (second_image : option PyImage) : py retval unit :=
  none_given ← lift (both_falsy annotated_image second_image);
  (if none_given : bool then return_ (PyNone, no_images_msg) else mret tt);;
  debug_append "🚀 Function execution started";;
  try_except
    (process_body annotated_image second_image)
    (fun e => error_exit debug_enabled ("Unexpected error: " +:+ exn_str e)).

End Pipeline.

(** [process_images(annotated_image, second_image, debug_enabled)], run in a
    world: how the call ends, and the world it leaves. *)
Definition process_images (E : Env) (annotated_image : option Annotation)
    (second_image : option PyImage) (debug_enabled : bool) (w : World)
  : completion retval unit * World :=
  run (process_images_body E debug_enabled annotated_image second_image) w.

(** ** [download_image] (lines 323-338) *)

(** [os.path.exists(composite_path)] *)
Definition composite_exists {R} : py R bool := fun f =>
  (Normal (is_not_None (result_store (world f))), f).

Definition download_image (E : Env) (w : World) : completion pyvalue unit * World :=
  run (try_except
         (found ← composite_exists;
          if found : bool then return_ (PyPath (composite_path E))
          else return_ PyNone)
         (fun e => return_ PyNone)) w.


(** * Vocabulary of the properties *)

(** The frame after [debug_info.append(s)]. *)
Definition logged (f : Frame) (s : string) : Frame :=
  {| world := world f; debug_info := debug_info f ++ [s] |}.

(** A block leaves the world related to the one it started in, however it
    ends. *)
Definition world_steps {R A} (Q : World -> World -> Prop) (m : py R A) : Prop :=
  forall f, Q (world f) (world (m f).2).

(** [not api_key]: the variable is unset or empty. *)
Definition key_absent (E : Env) : Prop :=
  GOOGLE_API_KEY E = None \/ GOOGLE_API_KEY E = Some "".

(** The calls issued since world [w]. *)
Definition calls_since (w w' : World) : list Request :=
  drop (length (api_calls w)) (api_calls w').

(** The world only gained calls, each carrying the prompt [p]. *)
Definition calls_with_prompt (p : string) (w w' : World) : Prop :=
  exists l : list Request,
    api_calls w' = api_calls w ++ l /\ Forall (fun r => req_prompt r = p) l.

(** The four bounds of a box. *)
Definition bounds (b : Box) : option Z * option Z * option Z * option Z :=
  (xmin b, ymin b, xmax b, ymax b).

(** A part the loop acts on: it carries text or inline data. *)
Definition carries (p : Part) : bool :=
  is_not_None (text p) || is_not_None (inline_data p).

(** The number of bands of a Pillow mode. *)
Definition bands (m : string) : nat :=
  if str_in m ["1"; "L"; "P"; "I"; "F"; "I;16"; "I;16L"; "I;16B"; "I;16N"] then 1
  else if str_in m ["LA"; "PA"; "La"] then 2
  else if str_in m ["RGB"; "YCbCr"; "LAB"; "HSV"] then 3
  else 4.

(** An image holds width x height pixels, each with the bands of its
    mode. *)
Definition wf_image (im : Image) : Prop :=
  length (pixels im) = (fst (im_size im) * snd (im_size im))%nat /\
  Forall (fun p => length p = bands (mode im)) (pixels im).

(** What Pillow's [convert] promises when it succeeds: an image of the
    requested mode and of the same size. *)
Definition convert_sound (E : Env) : Prop :=
  forall m im im', wf_image im -> Image_convert E m im = Ok im' ->
    mode im' = m /\ im_size im' = im_size im /\ wf_image im'.

(** A pixel with an alpha band, composited over white. *)
Definition over_white (p : list Z) : list Z :=
  blend_pixel (List.last p 0) white p.

(** [o] is the band [c] of a pixel with alpha [a] blended over white:
    (c * a + 255 * (255 - a)) / 255, rounded to the nearest integer. *)
Definition blended_over_white (c a o : Z) : Prop :=
  0 <= o <= 255 /\ -127 <= 255 * o - (c * a + 255 * (255 - a)) <= 127.

(** Every four-band pixel of [src] with 8-bit bands has, at the same place
    in [out], the three colours it has over white. *)
Definition composited_over_white (src out : list (list Z)) : Prop :=
  forall (i : nat) r g b a,
    src !! i = Some [r; g; b; a] ->
    0 <= r <= 255 -> 0 <= g <= 255 -> 0 <= b <= 255 -> 0 <= a <= 255 ->
    exists r' g' b',
      out !! i = Some [r'; g'; b'] /\
      blended_over_white r a r' /\ blended_over_white g a g' /\
      blended_over_white b a b'.

(** What [process_images] may return: no image, or the image it stored,
    with the success status. *)
Definition returned_image_stored (E : Env) (d : bool) (r : retval) (w : World) : Prop :=
  r.1 = PyNone \/
  exists im b fmt trace,
    r = (PyImg im, status_with_debug d (success_status fmt) trace) /\
    png_encode E (Some 1%nat) im = Ok b /\
    result_store w = Some b.

(** Every [return] of a block hands back a pair that satisfies [P] in the
    world the block leaves. *)
Definition returns {A} (P : retval -> World -> Prop) (m : py retval A) : Prop :=
  forall f, match (m f).1 with
            | Return r => P r (world (m f).2)
            | _ => True
            end.

(** The result store is the same in both worlds. *)
Definition same_store (w w' : World) : Prop := result_store w' = result_store w.

(** The frame with [trace] appended to [debug_info]. *)
Definition traced (f : Frame) (trace : list string) : Frame :=
  {| world := world f; debug_info := debug_info f ++ trace |}.

(** The world once [b] has been written to generated_composite.png. *)
Definition stored (w : World) (b : bytes) : World :=
  {| tmp_files := tmp_files w; result_store := Some b; api_calls := api_calls w |}.

(** [to_pil] without the frame. *)
Definition pil_of (E : Env) (x : PyImage) : result Image :=
  match x with
  | NdArray a => Image_fromarray E a
  | Pil im => Ok im
  end.

(** The invocation gets as far as a response: the key is set, the client is
    built, both images are encoded and the service answers [response]. *)
Definition response_received (E : Env) (ann : Annotation) (snd : PyImage)
    (box : Box) (response : Response) : Prop :=
  exists key first_img im1 enc1 im2 enc2,
    GOOGLE_API_KEY E = Some key /\ key <> "" /\
    genai_Client E key = None /\
    image ann = Some first_img /\
    pil_of E first_img = Ok im1 /\ png_encode E None im1 = Ok enc1 /\
    pil_of E snd = Ok im2 /\ png_encode E None im2 = Ok enc2 /\
    generate_content E
      {| req_model := "gemini-2.5-flash-image-preview";
         req_prompt := enhanced_prompt box;
         req_image1 := im1;
         req_image2 := im2 |} = Ok response.

(** ** A concrete environment, for examples *)

Definition sample_rgb : Image :=
  {| mode := "RGB"; im_size := (2, 1)%nat; format := Some "PNG"; palette := [];
     pixels := [[12; 34; 56]; [200; 100; 0]] |}.

Definition sample_rgba : Image :=
  {| mode := "RGBA"; im_size := (2, 1)%nat; format := Some "PNG"; palette := [];
     pixels := [[10; 20; 30; 0]; [40; 50; 60; 255]] |}.

Definition sample_cmyk : Image :=
  {| mode := "CMYK"; im_size := (1, 1)%nat; format := Some "JPEG"; palette := [];
     pixels := [[0; 10; 20; 30]] |}.

Definition sample_array : ndarray :=
  {| shape := [1; 2; 3]%nat; flat := [12; 34; 56; 200; 100; 0] |}.

Definition sample_box : Box :=
  {| xmin := Some 61; ymin := Some 298; xmax := Some 228; ymax := Some 462 |}.

Definition sample_annotation (bs : list Box) : Annotation :=
  {| image := Some (Pil sample_rgb); boxes := Some bs |}.

Definition text_part (t : string) : Part :=
  {| text := Some t; inline_data := None |}.
Definition data_part (b : bytes) : Part :=
  {| text := None;
     inline_data := Some {| data := Some b; mime_type := Some "image/png" |} |}.

Definition candidate_of (ps : list Part) : Candidate :=
  {| content := Some {| parts := Some ps |} |}.

Definition response_of (ps : list Part) : Response :=
  {| candidates := Some [candidate_of ps] |}.

(** A stand-in encoder: a one-byte tag for the mode; it refuses modes the
    PNG writer does not know. *)
Definition sample_encode (im : Image) : result bytes :=
  if String.eqb (mode im) "RGB" then Ok [Byte.x01]
  else if String.eqb (mode im) "RGBA" then Ok [Byte.x02]
  else Err (Exception "OSError" ("cannot write mode " +:+ mode im +:+ " as PNG")).

Definition sample_open (b : bytes) : result Image :=
  match b with
  | [Byte.x01] => Ok sample_rgb
  | [Byte.x02] => Ok sample_rgba
  | _ => Err (Exception "UnidentifiedImageError" "cannot identify image file")
  end.

(** Conversions of "L" to "RGB" and of "LA" to "RGBA". *)
Definition sample_convert (m : string) (im : Image) : result Image :=
  let remap (g : list Z -> list Z) :=
    Ok {| mode := m; im_size := im_size im; format := None; palette := [];
          pixels := map g (pixels im) |} in
  if String.eqb (mode im) "L" && String.eqb m "RGB" then
    remap (fun p => let l := List.hd 0 p in [l; l; l])
  else if String.eqb (mode im) "LA" && String.eqb m "RGBA" then
    remap (fun p => let l := List.hd 0 p in [l; l; l; List.last p 255])
  else Err (Exception "ValueError" "conversion not supported").

Definition sample_env (key : option string) (reply : result Response) : Env :=
  {| GOOGLE_API_KEY := key;
     output_dir := "/srv/banana-app";
     genai_Client := fun _ => None;
     numpy_empty_truth := Ok false;
     Image_fromarray := fun _ => Ok sample_rgb;
     png_encode := fun _ => sample_encode;
     Image_open := sample_open;
     Image_convert := sample_convert;
     generate_content := fun _ => reply;
     unlink_error := fun _ => None |}.

Definition empty_world : World :=
  {| tmp_files := ∅; result_store := None; api_calls := [] |}.

Definition sample_request (im2 : Image) : Request :=
  {| req_model := "gemini-2.5-flash-image-preview";
     req_prompt := enhanced_prompt sample_box;
     req_image1 := sample_rgb;
     req_image2 := im2 |}.

(** ** Further vocabulary *)

(** A block never falls through to the statement after it. *)
Definition ends {R A} (m : py R A) : Prop :=
  forall f a, (m f).1 <> Normal a.

(** The log of calls is the same in both worlds. *)
Definition same_calls (w w' : World) : Prop := api_calls w' = api_calls w.

(** The temporary directory is the same in both worlds. *)
Definition same_tmp (w w' : World) : Prop := tmp_files w' = tmp_files w.

(** If generated_composite.png exists in [w], it exists in [w']. *)
Definition store_kept (w w' : World) : Prop :=
  is_Some (result_store w) -> is_Some (result_store w').

(** The one request an invocation sends (lines 178-181). *)
Definition the_request (box : Box) (im1 im2 : Image) : Request :=
  {| req_model := "gemini-2.5-flash-image-preview";
     req_prompt := enhanced_prompt box;
     req_image1 := im1;
     req_image2 := im2 |}.

(** The invocation gets as far as the call: the key is set, the client is
    built and both images are converted and encoded. *)
Definition call_reached (E : Env) (ann : Annotation) (snd : PyImage)
    (im1 im2 : Image) : Prop :=
  exists key first_img enc1 enc2,
    GOOGLE_API_KEY E = Some key /\ key <> "" /\
    genai_Client E key = None /\
    image ann = Some first_img /\
    pil_of E first_img = Ok im1 /\ png_encode E None im1 = Ok enc1 /\
    pil_of E snd = Ok im2 /\ png_encode E None im2 = Ok enc2.

(** Two completions that differ at most by a debug trace appended to the
    status: the first is that of a run with the debug flag, the second that
    of the run without. *)
Definition debug_extends {A} (c1 c0 : completion retval A) : Prop :=
  match c1, c0 with
  | Normal a1, Normal a0 => a1 = a0
  | Raise e1, Raise e0 => e1 = e0
  | Return (v1, s1), Return (v0, s0) =>
      v1 = v0 /\ (s1 = s0 \/ exists trace, s1 = s0 +:+ debug_suffix trace)
  | _, _ => False
  end.

(** Two blocks, one run with the debug flag and one without, end alike and
    leave the same frame. *)
Definition debug_sim {A} (m1 m0 : py retval A) : Prop :=
  forall f, debug_extends (m1 f).1 (m0 f).1 /\ (m1 f).2 = (m0 f).2.

(** The environment with another answer of [os.unlink]. *)
Definition with_unlink (E : Env) (u : nat -> option exn) : Env :=
  {| GOOGLE_API_KEY := GOOGLE_API_KEY E;
     output_dir := output_dir E;
     genai_Client := genai_Client E;
     numpy_empty_truth := numpy_empty_truth E;
     Image_fromarray := Image_fromarray E;
     png_encode := png_encode E;
     Image_open := Image_open E;
     Image_convert := Image_convert E;
     generate_content := generate_content E;
     unlink_error := u |}.

(** The world once [req] has been sent. *)
Definition called (w : World) (req : Request) : World :=
  {| tmp_files := tmp_files w; result_store := result_store w;
     api_calls := api_calls w ++ [req] |}.

(** The inner [try] statement of lines 172-307, with its handler and its
    [finally] block. *)
Definition call_stage (E : Env) (d : bool) (box : Box) (im1 im2 : Image)
    (n1 n2 : nat) : py retval unit :=
  try_finally
    (try_except
       (call_and_interpret E d (enhanced_prompt box) im1 im2)
       (fun api_error => error_exit d ("Gemini API error: " +:+ exn_str api_error)))
    (cleanup E n1 n2).

(** An environment whose client constructor refuses the key. *)
Definition refusing_env : Env :=
  {| GOOGLE_API_KEY := Some "expired";
     output_dir := "/srv/banana-app";
     genai_Client := fun _ => Some (Exception "ValueError" "invalid API key");
     numpy_empty_truth := Ok false;
     Image_fromarray := fun _ => Ok sample_rgb;
     png_encode := fun _ => sample_encode;
     Image_open := sample_open;
     Image_convert := sample_convert;
     generate_content := fun _ => Ok (response_of []);
     unlink_error := fun _ => None |}.

(** Two runs end alike for the caller: the same completion, the same result
    store and the same calls; when an exception is on its way, the same
    frame. *)
Definition same_outcome {A} (x y : completion retval A * Frame) : Prop :=
  x.1 = y.1 /\
  result_store (world x.2) = result_store (world y.2) /\
  api_calls (world x.2) = api_calls (world y.2) /\
  (forall e, x.1 = Raise e -> x.2 = y.2).

(** An environment in which the saved composite cannot be read back. *)
Definition unreadable_env : Env :=
  {| GOOGLE_API_KEY := Some "key";
     output_dir := "/srv/banana-app";
     genai_Client := fun _ => None;
     numpy_empty_truth := Ok false;
     Image_fromarray := fun _ => Ok sample_rgb;
     png_encode := fun _ => sample_encode;
     Image_open := fun b =>
       match b with
       | [Byte.x02] => Ok sample_rgba
       | _ => Err (Exception "UnidentifiedImageError" "cannot identify image file")
       end;
     Image_convert := sample_convert;
     generate_content := fun _ => Ok (response_of [data_part [Byte.x02]]);
     unlink_error := fun _ => None |}.

(** The characters of what [str] prints for a coordinate: the digits and
    the minus sign of an integer, and the letters of "None". *)
Definition token_char (c : ascii) : bool :=
  existsb (Ascii.eqb c)
    ["0"; "1"; "2"; "3"; "4"; "5"; "6"; "7"; "8"; "9"; "-"; "N"; "o"; "n"; "e"]%char.

Fixpoint all_chars (P : ascii -> bool) (s : string) : bool :=
  match s with
  | EmptyString => true
  | String c s' => P c && all_chars P s'
  end.

(** * Reasoning about completions *)

Lemma bind_run {R A B} (m : py R A) (k : A -> py R B) (f : Frame) :
  (m ≫= k) f =
  match m f with
  | (Normal a, f') => k a f'
  | (Return r, f') => (Return r, f')
  | (Raise e, f') => (Raise e, f')
  end.
Proof. reflexivity. Qed.

Lemma debug_append_run {R} (s : string) (f : Frame) :
  debug_append (R := R) s f = (Normal tt, logged f s).
Proof. reflexivity. Qed.

Lemma error_exit_run {A} (d : bool) (msg : string) (f : Frame) :
  error_exit (A := A) d msg f =
  (Return (PyNone, status_with_debug d msg (debug_info f ++ ["❌ " +:+ msg])),
   logged f ("❌ " +:+ msg)).
Proof. reflexivity. Qed.

Lemma bind_ret_run {R A B} (a : A) (k : A -> py R B) (f : Frame) :
  (mret a ≫= k) f = k a f.
Proof. reflexivity. Qed.

Lemma bind_ok_run {R A B} (a : A) (k : A -> py R B) (f : Frame) :
  (lift (Ok a) ≫= k) f = k a f.
Proof. reflexivity. Qed.

Lemma bind_err_run {R A B} (e : exn) (k : A -> py R B) (f : Frame) :
  (lift (Err e) ≫= k) f = (Raise e, f).
Proof. reflexivity. Qed.

Lemma bind_debug_run {R B} (s : string) (k : unit -> py R B) (f : Frame) :
  (debug_append s ≫= k) f = k tt (logged f s).
Proof. reflexivity. Qed.

Lemma bind_modify_run {R B} (g : World -> World) (k : unit -> py R B) (f : Frame) :
  (modify_world g ≫= k) f =
  k tt {| world := g (world f); debug_info := debug_info f |}.
Proof. reflexivity. Qed.

Lemma bind_assoc_run {R A B C} (m : py R A) (k : A -> py R B) (k' : B -> py R C)
    (f : Frame) :
  ((m ≫= k) ≫= k') f = (m ≫= fun a => k a ≫= k') f.
Proof. rewrite !bind_run. destruct (m f) as [[a|r|e] f']; reflexivity. Qed.

Lemma bind_return_run {R A B} (m : py R A) (k : A -> py R B) (f f' : Frame) (r : R) :
  m f = (Return r, f') -> (m ≫= k) f = (Return r, f').
Proof. intros H. rewrite bind_run, H. reflexivity. Qed.

Lemma bind_raise_run {R A B} (m : py R A) (k : A -> py R B) (f f' : Frame) (e : exn) :
  m f = (Raise e, f') -> (m ≫= k) f = (Raise e, f').
Proof. intros H. rewrite bind_run, H. reflexivity. Qed.

Lemma return_text_run {A} (d : bool) (t : string) (f : Frame) :
  return_text (A := A) d t f =
  (Return (PyNone,
           status_with_debug d ("Gemini Response (Text Only): " +:+ t) (debug_info f)),
   f).
Proof. reflexivity. Qed.

Ltac py_run :=
  repeat first
    [ rewrite bind_assoc_run
    | rewrite bind_ret_run | rewrite bind_ok_run | rewrite bind_err_run
    | rewrite bind_debug_run | rewrite bind_modify_run
    | rewrite error_exit_run ].

Section WorldSteps.

Context {R : Type} (Q : World -> World -> Prop) `{!PreOrder Q}.

Lemma steps_ret {A} (a : A) : world_steps Q (mret a : py R A).
Proof. intros f. reflexivity. Qed.

Lemma steps_raise {A} (e : exn) : world_steps Q (raise e : py R A).
Proof. intros f. reflexivity. Qed.

Lemma steps_return {A} (r : R) : world_steps Q (return_ r : py R A).
Proof. intros f. reflexivity. Qed.

Lemma steps_lift {A} (r : result A) : world_steps Q (lift r : py R A).
Proof. destruct r; intros f; reflexivity. Qed.

Lemma steps_debug_append (s : string) : world_steps Q (debug_append s : py R unit).
Proof. intros f. reflexivity. Qed.

Lemma steps_bind {A B} (m : py R A) (k : A -> py R B) :
  world_steps Q m -> (forall a, world_steps Q (k a)) -> world_steps Q (m ≫= k).
Proof.
  intros Hm Hk f. rewrite bind_run. specialize (Hm f).
  destruct (m f) as [[a|r|e] f']; simpl in *; try assumption.
  etransitivity; [exact Hm | apply Hk].
Qed.

Lemma steps_try_except {A} (body : py R A) (handler : exn -> py R A) :
  world_steps Q body -> (forall e, world_steps Q (handler e)) ->
  world_steps Q (try_except body handler).
Proof.
  intros Hb Hh f. unfold try_except. specialize (Hb f).
  destruct (body f) as [[a|r|e] f']; simpl in *; try assumption.
  etransitivity; [exact Hb | apply Hh].
Qed.

Lemma steps_try_finally {A} (body : py R A) (fin : py R unit) :
  world_steps Q body -> world_steps Q fin -> world_steps Q (try_finally body fin).
Proof.
  intros Hb Hf f. unfold try_finally. specialize (Hb f).
  destruct (body f) as [c f']. specialize (Hf f'). simpl in *.
  destruct (fin f') as [[a|r|e] f'']; simpl in *; etransitivity; eassumption.
Qed.

End WorldSteps.


(** * The gate at line 36 and the validation of the inputs *)

Lemma process_images_dispatch E a s d w :
  process_images E a s d w =
  match both_falsy E a s with
  | Err e => (Raise e, w)
  | Ok true => (Return (PyNone, no_images_msg), w)
  | Ok false =>
      run (debug_append "🚀 Function execution started";;
           try_except (process_body E d a s)
             (fun e => error_exit d ("Unexpected error: " +:+ exn_str e))) w
  end.
Proof.
  unfold process_images, process_images_body, run. rewrite bind_run.
  destruct (both_falsy E a s) as [[]|]; reflexivity.
Qed.

Lemma truthy_with_boxes ann bs :
  boxes ann = Some bs -> truthy_annotation (Some ann) = true.
Proof. intros H. unfold truthy_annotation. rewrite H. destruct (image ann); reflexivity. Qed.

Lemma both_falsy_truthy E a s :
  truthy_annotation a = true -> both_falsy E a s = Ok false.
Proof. intros H. unfold both_falsy. rewrite H. reflexivity. Qed.

(** The outer [try] turns every exception into a returned status. *)
Lemma guarded_run E d a s f :
  exists c f', (c, f') =
    try_except (process_body E d a s)
      (fun e => error_exit d ("Unexpected error: " +:+ exn_str e)) f
    /\ forall e, c <> Raise e.
Proof.
  unfold try_except.
  destruct (process_body E d a s f) as [[[]|r|e] f'].
  - eexists _, _. split; [reflexivity | discriminate].
  - eexists _, _. split; [reflexivity | discriminate].
  - rewrite error_exit_run. eexists _, _. split; [reflexivity | discriminate].
Qed.

(** An exception leaves [process_images] only from the test at line 36. *)
Lemma process_images_raises E a s d w e w' :
  process_images E a s d w = (Raise e, w') ->
  both_falsy E a s = Err e /\ w' = w.
Proof.
  rewrite process_images_dispatch.
  destruct (both_falsy E a s) as [[]|e0]; try discriminate.
  - unfold run. rewrite bind_run, debug_append_run.
    destruct (guarded_run E d a s (logged {| world := w; debug_info := [] |}
                                     "🚀 Function execution started"))
      as (c & f' & Heq & Hc).
    rewrite <- Heq. intros H. inversion H; subst. exfalso. eapply Hc. reflexivity.
  - intros H. inversion H; subst. split; reflexivity.
Qed.



(** C2 (at the failing input): without an annotation, a second image that is
    an array of several elements makes the test at line 36 raise, before the
    [try] is entered; the exception reaches the caller. *)
Theorem process_images_raises_on_array E sh x y rest d w :
  process_images E None (Some (NdArray {| shape := sh; flat := x :: y :: rest |})) d w
  = (Raise ambiguous_truth, w).
Proof. rewrite process_images_dispatch. reflexivity. Qed.

(** C9: [download_image] returns the path of [generated_composite.png] when
    the file exists and [None] when it does not; it never raises and leaves
    the world as it is. *)
Theorem download_image_spec E w :
  download_image E w =
    (Return (if is_not_None (result_store w)
             then PyPath (output_dir E +:+ "/generated_composite.png")
             else PyNone), w) /\
  ((download_image E w).1 = Return (PyPath (composite_path E))
     <-> is_Some (result_store w)) /\
  ((download_image E w).1 = Return PyNone <-> result_store w = None).
Proof.
  unfold download_image, run, try_except, composite_exists.
  rewrite bind_run. simpl.
  destruct (result_store w) as [b|]; simpl.
  - split; [reflexivity|]. split; split; intros H; try discriminate.
    + eauto.
    + reflexivity.
  - split; [reflexivity|]. split; split; intros H; try discriminate.
    + destruct H as [? H]. discriminate.
    + reflexivity.
    + reflexivity.
Qed.


Lemma generate_no_key E d ann snd box f :
  key_absent E ->
  generate E d ann snd box f =
  (Return (PyNone,
           status_with_debug d no_api_key_msg (debug_info f ++ [no_api_key_msg])),
   logged f no_api_key_msg).
Proof. intros [H|H]; unfold generate; rewrite H; reflexivity. Qed.

Lemma process_body_boxes E d ann snd box rest f :
  boxes ann = Some (box :: rest) -> empty_array snd = false ->
  exists f0, world f0 = world f /\
    process_body E d (Some ann) (Some snd) f = generate E d ann snd box f0.
Proof.
  intros Hb He. unfold process_body. rewrite He, Hb.
  rewrite bind_run, debug_append_run, bind_run, debug_append_run.
  eexists. split; [|reflexivity]. reflexivity.
Qed.

Lemma process_body_no_box E d ann snd f :
  boxes ann = None \/ boxes ann = Some [] -> empty_array snd = false ->
  process_body E d (Some ann) (Some snd) f =
  (Return (PyNone,
           status_with_debug d missing_box_msg
             (debug_info f ++ ["❌ " +:+ missing_box_msg])),
   logged f ("❌ " +:+ missing_box_msg)).
Proof.
  intros Hb He. unfold process_body. rewrite He.
  destruct Hb as [Hb|Hb]; rewrite Hb; apply error_exit_run.
Qed.

(** Validation that fails returns a status and leaves the world alone. *)
Lemma process_body_invalid E d a s f :
  (forall ann snd box rest,
      a = Some ann -> s = Some snd -> boxes ann = Some (box :: rest) ->
      empty_array snd = false -> False) ->
  exists msg, process_body E d a s f =
    (Return (PyNone, status_with_debug d msg (debug_info f ++ ["❌ " +:+ msg])),
     logged f ("❌ " +:+ msg)).
Proof.
  intros Hinv. unfold process_body.
  destruct a as [ann|]; [|eexists; apply error_exit_run].
  destruct s as [snd|]; [|eexists; apply error_exit_run].
  destruct (empty_array snd) eqn:He; [eexists; apply error_exit_run|].
  destruct (boxes ann) as [[|box rest]|] eqn:Hb; try (eexists; apply error_exit_run).
  exfalso. eapply Hinv; eauto.
Qed.

Lemma run_guarded_return E d a s w r f' :
  process_body E d a s (logged {| world := w; debug_info := [] |}
                          "🚀 Function execution started") = (Return r, f') ->
  both_falsy E a s = Ok false ->
  process_images E a s d w = (Return r, world f').
Proof.
  intros Hbody Hgate. rewrite process_images_dispatch, Hgate.
  unfold run. rewrite bind_run, debug_append_run. unfold try_except.
  rewrite Hbody. reflexivity.
Qed.

Lemma process_images_gate_world E a s d w :
  both_falsy E a s <> Ok false -> (process_images E a s d w).2 = w.
Proof.
  intros H. rewrite process_images_dispatch.
  destruct (both_falsy E a s) as [[]|]; try reflexivity. congruence.
Qed.

(** Whatever the inputs, a run that ends in a [return] of the body leaves
    the world the body left. *)
Lemma process_images_body_world E a s d w :
  (forall f, exists r f', process_body E d a s f = (Return r, f') /\ world f' = world f) ->
  (process_images E a s d w).2 = w.
Proof.
  intros Hbody.
  destruct (both_falsy E a s) as [[]|e] eqn:Hgate;
    try (apply process_images_gate_world; congruence).
  destruct (Hbody (logged {| world := w; debug_info := [] |}
                     "🚀 Function execution started")) as (r & f' & Hrun & Hw).
  rewrite (run_guarded_return E d a s w r f' Hrun Hgate). exact Hw.
Qed.





(** C6 (amended): an annotation whose boxes are empty or absent never leads
    to a call or to a change of the result store (the world is left as it
    was); when the annotation dict is not empty and a second image is given
    (not [None], not an empty array), the status is the missing-box
    message. *)
Theorem missing_box_fails_before_call E ann d w :
  boxes ann = None \/ boxes ann = Some [] ->
  (forall s, (process_images E (Some ann) s d w).2 = w) /\
  (forall snd,
      truthy_annotation (Some ann) = true -> empty_array snd = false ->
      exists trace,
        process_images E (Some ann) (Some snd) d w =
        (Return (PyNone, status_with_debug d missing_box_msg trace), w)).
Proof.
  intros Hb. split.
  - intros s. apply process_images_body_world. intros f.
    destruct (process_body_invalid E d (Some ann) s f) as [msg Hmsg].
    + intros ann' snd box rest [= <-] _ Hb' _.
      destruct Hb as [Hb|Hb]; congruence.
    + eexists _, _. split; [exact Hmsg|reflexivity].
  - intros snd Ht He. eexists.
    rewrite (run_guarded_return E d _ _ w _ _
               (process_body_no_box E d ann snd _ Hb He)
               (both_falsy_truthy E _ _ Ht)).
    reflexivity.
Qed.

Lemma missing_box_fails_before_call_witness :
  (boxes (sample_annotation []) = None \/ boxes (sample_annotation []) = Some []) /\
  exists trace,
    process_images (sample_env (Some "key") (Ok (response_of [])))
      (Some (sample_annotation [])) (Some (NdArray sample_array)) true empty_world
    = (Return (PyNone, status_with_debug true missing_box_msg trace), empty_world).
Proof.
  split; [right; reflexivity|].
  apply (missing_box_fails_before_call (sample_env (Some "key") (Ok (response_of [])))
           (sample_annotation []) true empty_world);
    [right; reflexivity | reflexivity | reflexivity].
Defined.

(** C6 (as stated) fails: an annotation with an empty list of boxes and no
    second image is answered with the status of the missing second image. *)
Lemma missing_box_not_always_reported :
  boxes (sample_annotation []) = Some [] /\
  process_images (sample_env (Some "key") (Ok (response_of [])))
    (Some (sample_annotation [])) None false empty_world
  = (Return (PyNone, missing_second_msg), empty_world) /\
  missing_second_msg <> missing_box_msg.
Proof. split; [reflexivity|]. split; [reflexivity|discriminate]. Qed.


(** * What an invocation may do to the world *)

Section Footprint.

(** [Q] tolerates writes to temporary files and to the result store, and
    calls that carry the prompt [p]. *)
Context (Q : World -> World -> Prop) `{!PreOrder Q} (p : string).
Hypothesis Q_tmp : forall w t,
  Q w {| tmp_files := t; result_store := result_store w; api_calls := api_calls w |}.
Hypothesis Q_store : forall w b,
  Q w {| tmp_files := tmp_files w; result_store := Some b; api_calls := api_calls w |}.
Hypothesis Q_call : forall w req, req_prompt req = p ->
  Q w {| tmp_files := tmp_files w; result_store := result_store w;
         api_calls := api_calls w ++ [req] |}.

Variable E : Env.
Variable d : bool.

Create HintDb steps.

Local Hint Resolve steps_ret steps_raise steps_return steps_lift
  steps_debug_append : steps.

Ltac steps :=
  repeat first
    [ solve [auto with steps typeclass_instances]
    | apply steps_bind; [exact _| |intros ?]
    | apply steps_try_except; [exact _| |intros ?]
    | apply steps_try_finally; [exact _| |] ].

Lemma steps_error_exit {A} msg : world_steps Q (error_exit (A := A) d msg).
Proof. intros f. rewrite error_exit_run. reflexivity. Qed.

Lemma steps_return_error {A} msg : world_steps Q (return_error (A := A) d msg).
Proof. intros f. reflexivity. Qed.

Lemma steps_return_text {A} t : world_steps Q (return_text (A := A) d t).
Proof. intros f. reflexivity. Qed.

Lemma steps_return_success {A} im fmt :
  world_steps Q (return_success (A := A) d im fmt).
Proof. intros f. reflexivity. Qed.

Lemma steps_create_temp : world_steps Q (create_temp (R := retval)).
Proof. intros f. apply Q_tmp. Qed.

Lemma steps_write_temp n b : world_steps Q (write_temp (R := retval) n b).
Proof. intros f. apply Q_tmp. Qed.

Lemma steps_write_store b : world_steps Q (write_store (R := retval) b).
Proof. intros f. apply Q_store. Qed.

Lemma steps_os_unlink n : world_steps Q (os_unlink (R := retval) E n).
Proof.
  intros f. unfold os_unlink.
  destruct (tmp_files (world f) !! n); [|reflexivity].
  destruct (unlink_error E n); [reflexivity|]. apply Q_tmp.
Qed.

Lemma steps_call req :
  req_prompt req = p -> world_steps Q (call_generate_content (R := retval) E req).
Proof.
  intros Hp. unfold call_generate_content. apply steps_bind; [exact _| |].
  - intros f. apply Q_call, Hp.
  - intros _. apply steps_lift. exact _.
Qed.

Local Hint Resolve steps_error_exit steps_return_error steps_return_text
  steps_return_success steps_create_temp steps_write_temp steps_write_store
  steps_os_unlink : steps.

Lemma steps_open_composite : world_steps Q (open_composite E).
Proof.
  intros f. unfold open_composite.
  destruct (result_store (world f)); [|reflexivity].
  apply steps_lift. exact _.
Qed.

Local Hint Resolve steps_open_composite : steps.

Lemma steps_handle_inline_data blob : world_steps Q (handle_inline_data E d blob).
Proof. unfold handle_inline_data. steps. Qed.

Lemma steps_scan_parts ps : forall i, world_steps Q (scan_parts E d i ps).
Proof.
  induction ps as [|part rest IH]; intros i; simpl; [steps|].
  steps.
  destruct (text part).
  - steps.
  - destruct (inline_data part); [apply steps_handle_inline_data|steps].
Qed.

Local Hint Resolve steps_scan_parts : steps.

Lemma steps_interpret_response response :
  world_steps Q (interpret_response E d response).
Proof.
  unfold interpret_response.
  destruct (candidates response) as [[|candidate ?]|]; steps.
Qed.

Local Hint Resolve steps_interpret_response steps_call : steps.

Lemma steps_call_and_interpret im1 im2 :
  world_steps Q (call_and_interpret E d p im1 im2).
Proof. unfold call_and_interpret. steps. Qed.

Lemma steps_cleanup n1 n2 : world_steps Q (cleanup E n1 n2).
Proof. unfold cleanup. steps. Qed.

Lemma steps_to_pil x : world_steps Q (to_pil E x).
Proof. destruct x; simpl; steps. Qed.

Lemma steps_save_to_temp label im : world_steps Q (save_to_temp E label im).
Proof. unfold save_to_temp. steps. Qed.

Local Hint Resolve steps_call_and_interpret steps_cleanup steps_to_pil
  steps_save_to_temp : steps.

Lemma steps_generate ann snd box :
  enhanced_prompt box = p -> world_steps Q (generate E d ann snd box).
Proof.
  intros Hp. unfold generate. rewrite Hp.
  destruct (GOOGLE_API_KEY E) as [[|c k]|]; steps.
  - destruct (genai_Client E _); steps.
  - destruct (image ann); steps.
Qed.

Lemma steps_process_body a s :
  (forall ann box rest, a = Some ann -> boxes ann = Some (box :: rest) ->
                        enhanced_prompt box = p) ->
  world_steps Q (process_body E d a s).
Proof.
  intros Hp. unfold process_body.
  destruct a as [ann|]; [|steps].
  destruct s as [snd|]; [|steps].
  destruct (empty_array snd); [steps|].
  destruct (boxes ann) as [[|box rest]|] eqn:Hb; steps.
  apply steps_generate. eapply Hp; eauto.
Qed.

Lemma steps_process_images a s w :
  (forall ann box rest, a = Some ann -> boxes ann = Some (box :: rest) ->
                        enhanced_prompt box = p) ->
  Q w (process_images E a s d w).2.
Proof.
  intros Hp. rewrite process_images_dispatch.
  destruct (both_falsy E a s) as [[]|]; try reflexivity.
  unfold run.
  pose proof (steps_bind Q (R := retval)
                (debug_append "🚀 Function execution started")
                (fun _ => try_except (process_body E d a s)
                   (fun e => error_exit d ("Unexpected error: " +:+ exn_str e)))) as H.
  specialize (H (steps_debug_append Q _)).
  specialize (H (fun _ => steps_try_except Q _ _ (steps_process_body a s Hp)
                            (fun e => steps_error_exit _))).
  specialize (H {| world := w; debug_info := [] |}). simpl in H.
  destruct ((debug_append "🚀 Function execution started" ≫= _) _). exact H.
Qed.

End Footprint.


(** * The prompt *)

#[local] Instance calls_with_prompt_preorder p : PreOrder (calls_with_prompt p).
Proof.
  split.
  - intros w. exists []. split; [symmetry; apply app_nil_r | constructor].
  - intros w1 w2 w3 (l1 & H1 & F1) (l2 & H2 & F2).
    exists (l1 ++ l2). split.
    + rewrite H2, H1. symmetry. apply app_assoc.
    + apply Forall_app. split; assumption.
Qed.

Lemma calls_of_invocation E a s d w p :
  (forall ann box rest, a = Some ann -> boxes ann = Some (box :: rest) ->
                        enhanced_prompt box = p) ->
  Forall (fun r => req_prompt r = p) (calls_since w (process_images E a s d w).2).
Proof.
  intros Hp.
  destruct (steps_process_images (calls_with_prompt p) p) with
    (E := E) (d := d) (a := a) (s := s) (w := w) as (l & Hl & Hall).
  - intros w0 t. exists []. split; [symmetry; apply app_nil_r | constructor].
  - intros w0 b. exists []. split; [symmetry; apply app_nil_r | constructor].
  - intros w0 req Hreq. exists [req]. split; [reflexivity|].
    constructor; [exact Hreq | constructor].
  - exact Hp.
  - unfold calls_since. rewrite Hl, drop_app_length. exact Hall.
Qed.

(** C8: the prompt of every call an invocation issues is the constant
    template filled with the printed bounds of the first box; two
    invocations whose first boxes have the same bounds send byte-identical
    prompts, whatever else differs (environment, images, debug flag,
    world). *)
Theorem prompt_determined_by_bounds
    E1 E2 ann1 ann2 s1 s2 d1 d2 w1 w2 b1 b2 rest1 rest2 :
  boxes ann1 = Some (b1 :: rest1) ->
  boxes ann2 = Some (b2 :: rest2) ->
  bounds b1 = bounds b2 ->
  enhanced_prompt b1 = enhanced_prompt b2 /\
  (forall r1, r1 ∈ calls_since w1 (process_images E1 (Some ann1) s1 d1 w1).2 ->
     req_prompt r1 =
     prompt_template (py_str_int (xmin b1)) (py_str_int (ymin b1))
                     (py_str_int (xmax b1)) (py_str_int (ymax b1))) /\
  (forall r1 r2,
     r1 ∈ calls_since w1 (process_images E1 (Some ann1) s1 d1 w1).2 ->
     r2 ∈ calls_since w2 (process_images E2 (Some ann2) s2 d2 w2).2 ->
     req_prompt r1 = req_prompt r2).
Proof.
  intros Hb1 Hb2 Hbounds.
  assert (Hsame : enhanced_prompt b1 = enhanced_prompt b2).
  { unfold bounds in Hbounds. injection Hbounds as Hx Hy Hx' Hy'.
    unfold enhanced_prompt. rewrite Hx, Hy, Hx', Hy'. reflexivity. }
  assert (H1 : Forall (fun r => req_prompt r = enhanced_prompt b1)
                 (calls_since w1 (process_images E1 (Some ann1) s1 d1 w1).2)).
  { apply calls_of_invocation. intros ann box rest [= <-] Hb. congruence. }
  assert (H2 : Forall (fun r => req_prompt r = enhanced_prompt b2)
                 (calls_since w2 (process_images E2 (Some ann2) s2 d2 w2).2)).
  { apply calls_of_invocation. intros ann box rest [= <-] Hb. congruence. }
  rewrite Forall_forall in H1, H2.
  split; [exact Hsame|]. split.
  - intros r1 Hr1. apply H1. exact Hr1.
  - intros r1 r2 Hr1 Hr2.
    rewrite (H1 r1 Hr1), (H2 r2 Hr2). exact Hsame.
Qed.


Lemma prompt_determined_by_bounds_witness :
  bounds sample_box = bounds sample_box /\
  req_prompt (sample_request sample_rgb) = req_prompt (sample_request sample_rgba).
Proof.
  split; [reflexivity|].
  apply (prompt_determined_by_bounds
           (sample_env (Some "key-1") (Ok (response_of [text_part "no"])))
           (sample_env (Some "key-2") (Err (Exception "ServerError" "503")))
           (sample_annotation [sample_box])
           (sample_annotation [sample_box; sample_box])
           (Some (NdArray sample_array)) (Some (Pil sample_rgba))
           false true empty_world empty_world
           sample_box sample_box [] [sample_box]);
    try reflexivity; vm_compute; apply list_elem_of_here.
Defined.

(** * What is returned *)

Section Returns.

Context (P : retval -> World -> Prop).

Lemma returns_ret {A} (a : A) : returns P (mret a).
Proof. intros f. exact I. Qed.

Lemma returns_raise {A} (e : exn) : returns P (raise (A := A) e).
Proof. intros f. exact I. Qed.

Lemma returns_lift {A} (r : result A) : returns P (lift r).
Proof. destruct r; intros f; exact I. Qed.

Lemma returns_debug_append (s : string) : returns P (debug_append s).
Proof. intros f. exact I. Qed.

Lemma returns_modify_world g : returns P (modify_world g).
Proof. intros f. exact I. Qed.

Lemma returns_bind {A B} (m : py retval A) (k : A -> py retval B) :
  returns P m -> (forall a, returns P (k a)) -> returns P (m ≫= k).
Proof.
  intros Hm Hk f. rewrite bind_run. specialize (Hm f).
  destruct (m f) as [[a|r|e] f']; simpl in *; try assumption; try exact I.
  apply Hk.
Qed.

Lemma returns_try_except {A} (body : py retval A) (handler : exn -> py retval A) :
  returns P body -> (forall e, returns P (handler e)) ->
  returns P (try_except body handler).
Proof.
  intros Hb Hh f. unfold try_except. specialize (Hb f).
  destruct (body f) as [[a|r|e] f']; simpl in *; try assumption; try exact I.
  apply Hh.
Qed.

Lemma returns_try_finally {A} (Q : World -> World -> Prop)
    (body : py retval A) (fin : py retval unit) :
  (forall r w w', P r w -> Q w w' -> P r w') ->
  returns P body -> returns P fin -> world_steps Q fin ->
  returns P (try_finally body fin).
Proof.
  intros Hstable Hb Hf Hq f. unfold try_finally. specialize (Hb f).
  destruct (body f) as [c f']. specialize (Hf f'). specialize (Hq f').
  destruct (fin f') as [[a|r|e] f'']; simpl in *; try assumption; try exact I.
  destruct c as [a'|r|e]; try exact I. eapply Hstable; eassumption.
Qed.

Lemma returns_os_unlink E n : returns P (os_unlink E n).
Proof.
  intros f. unfold os_unlink.
  destruct (tmp_files (world f) !! n); [|exact I].
  destruct (unlink_error E n); exact I.
Qed.

End Returns.

#[local] Instance same_store_preorder : PreOrder same_store.
Proof.
  split.
  - intros w. reflexivity.
  - intros w1 w2 w3 H1 H2. unfold same_store in *. congruence.
Qed.

Section ReturnedImage.

Variable E : Env.
Variable d : bool.

Create HintDb returns.

Local Hint Resolve returns_ret returns_raise returns_lift returns_debug_append
  returns_modify_world : returns.

Ltac returns :=
  repeat first
    [ solve [auto with returns]
    | apply returns_bind; [|intros ?]
    | apply returns_try_except; [|intros ?] ].

Lemma returns_error_exit {A} msg : returns (returned_image_stored E d) (error_exit (A := A) d msg).
Proof. intros f. rewrite error_exit_run. left. reflexivity. Qed.

Lemma returns_return_error {A} msg : returns (returned_image_stored E d) (return_error (A := A) d msg).
Proof. intros f. left. reflexivity. Qed.

Lemma returns_return_text {A} t : returns (returned_image_stored E d) (return_text (A := A) d t).
Proof. intros f. left. reflexivity. Qed.

Local Hint Resolve returns_error_exit returns_return_error returns_return_text
  : returns.

Lemma returns_decode_inline_data image_data :
  returns (returned_image_stored E d) (decode_inline_data E d image_data).
Proof.
  unfold decode_inline_data. apply returns_try_except; [|intros e; returns].
  intros f.
  destruct (Image_open E image_data) as [image0|e]; py_run; [|exact I].
  destruct (normalize_output E image0) as [image1|e]; py_run; [|exact I].
  destruct (png_encode E (Some 1%nat) image1) as [encoded|e] eqn:Henc;
    py_run; [|exact I].
  unfold write_store. py_run. rewrite bind_run.
  unfold open_composite. cbn [world result_store logged].
  destruct (Image_open E encoded) as [saved|e]; [|exact I].
  cbn [lift mret py_ret]. py_run.
  unfold return_success. cbn [fst snd world result_store logged].
  right. eexists _, _, _, _. split; [reflexivity|]. split; [exact Henc|reflexivity].
Qed.

Lemma returns_handle_inline_data blob :
  returns (returned_image_stored E d) (handle_inline_data E d blob).
Proof.
  unfold handle_inline_data. apply returns_bind; [apply returns_lift|intros b].
  apply returns_decode_inline_data.
Qed.

Lemma returns_scan_parts ps : forall i, returns (returned_image_stored E d) (scan_parts E d i ps).
Proof.
  induction ps as [|part rest IH]; intros i; simpl; [returns|].
  returns.
  destruct (text part).
  - returns.
  - destruct (inline_data part); [apply returns_handle_inline_data|returns].
Qed.

Local Hint Resolve returns_scan_parts : returns.

Lemma returns_interpret_response response :
  returns (returned_image_stored E d) (interpret_response E d response).
Proof.
  unfold interpret_response.
  destruct (candidates response) as [[|candidate ?]|]; returns.
Qed.

Local Hint Resolve returns_interpret_response : returns.

Lemma returns_call_and_interpret p im1 im2 :
  returns (returned_image_stored E d) (call_and_interpret E d p im1 im2).
Proof. unfold call_and_interpret, call_generate_content. returns. Qed.

Local Hint Resolve returns_os_unlink : returns.

Lemma returns_cleanup n1 n2 : returns (returned_image_stored E d) (cleanup E n1 n2).
Proof. unfold cleanup. returns. Qed.

Lemma returns_to_pil x : returns (returned_image_stored E d) (to_pil E x).
Proof. destruct x; simpl; returns. Qed.

Lemma returns_save_to_temp label im : returns (returned_image_stored E d) (save_to_temp E label im).
Proof.
  unfold save_to_temp. returns.
  - intros f. exact I.
  - unfold write_temp. returns.
Qed.

(** The [finally] block does not touch the result store. *)
Lemma cleanup_same_store n1 n2 : world_steps same_store (cleanup E n1 n2).
Proof.
  apply (steps_cleanup same_store).
  intros w t. reflexivity.
Qed.

Local Hint Resolve returns_call_and_interpret returns_cleanup returns_to_pil
  returns_save_to_temp : returns.

Lemma returns_generate ann snd box : returns (returned_image_stored E d) (generate E d ann snd box).
Proof.
  unfold generate.
  destruct (GOOGLE_API_KEY E) as [[|c k]|]; returns.
  - destruct (genai_Client E _); returns.
  - destruct (image ann); returns.
  - apply returns_try_finally with (Q := same_store); returns.
    + intros r w w' [Hr|(im & b & fmt & tr & Hr & Henc & Hst)] Hq; [left; exact Hr|].
      right. exists im, b, fmt, tr. unfold same_store in Hq.
      split; [exact Hr|]. split; [exact Henc|]. congruence.
    + apply cleanup_same_store.
Qed.

Local Hint Resolve returns_generate : returns.

Lemma returns_process_body a s : returns (returned_image_stored E d) (process_body E d a s).
Proof.
  unfold process_body.
  destruct a as [ann|]; [|returns].
  destruct s as [snd|]; [|returns].
  destruct (empty_array snd); [returns|].
  destruct (boxes ann) as [[|box rest]|]; returns.
Qed.

Lemma returns_process_images a s w r w' :
  process_images E a s d w = (Return r, w') -> returned_image_stored E d r w'.
Proof.
  rewrite process_images_dispatch.
  destruct (both_falsy E a s) as [[]|]; try discriminate.
  - intros [= <- <-]. left. reflexivity.
  - unfold run.
    assert (H : returns (returned_image_stored E d)
              (debug_append "🚀 Function execution started";;
               try_except (process_body E d a s)
                 (fun e => error_exit d ("Unexpected error: " +:+ exn_str e)))).
    { returns. apply returns_process_body. }
    specialize (H {| world := w; debug_info := [] |}).
    destruct ((debug_append "🚀 Function execution started" ≫= _) _) as [c f'].
    intros [= -> <-]. exact H.
Qed.

End ReturnedImage.

(** C7 (amended): an invocation that returns an image returns the image
    object itself, the one it has just written to generated_composite.png,
    together with the success status; the path of the file is never what is
    returned. *)
Theorem success_returns_image E a s d w v status w' :
  process_images E a s d w = (Return (v, status), w') ->
  v <> PyNone ->
  (forall p, v <> PyPath p) /\
  exists im b fmt trace,
    v = PyImg im /\
    status = status_with_debug d (success_status fmt) trace /\
    png_encode E (Some 1%nat) im = Ok b /\
    result_store w' = Some b.
Proof.
  intros Hrun Hv.
  destruct (returns_process_images E d a s w _ w' Hrun)
    as [Hnone|(im & b & fmt & tr & [= -> ->] & Henc & Hst)].
  - contradiction.
  - split; [discriminate|]. exists im, b, fmt, tr. auto.
Qed.


Lemma success_returns_image_witness :
  exists im b fmt trace,
    PyImg (paste_mask (Image_new "RGB" (2, 1)%nat white) sample_rgba
             (last_band sample_rgba)) = PyImg im /\
    success_status "PNG" = status_with_debug false (success_status fmt) trace /\
    png_encode (sample_env (Some "key") (Ok (response_of [data_part [Byte.x02]])))
      (Some 1%nat) im = Ok b /\
    result_store
      (process_images
         (sample_env (Some "key") (Ok (response_of [data_part [Byte.x02]])))
         (Some (sample_annotation [sample_box])) (Some (NdArray sample_array))
         false empty_world).2 = Some b.
Proof.
  apply (success_returns_image
           (sample_env (Some "key") (Ok (response_of [data_part [Byte.x02]])))
           (Some (sample_annotation [sample_box])) (Some (NdArray sample_array))
           false empty_world).
  - vm_compute. reflexivity.
  - discriminate.
Defined.

(** C7 (as stated) fails: a successful invocation hands back the composited
    pixels, not the path of generated_composite.png. *)
Lemma success_returns_pixels_not_path :
  (process_images (sample_env (Some "key") (Ok (response_of [data_part [Byte.x02]])))
     (Some (sample_annotation [sample_box])) (Some (NdArray sample_array))
     false empty_world).1
  = Return (PyImg {| mode := "RGB"; im_size := (2, 1)%nat; format := None;
                     palette := [];
                     pixels := [[255; 255; 255]; [40; 50; 60]] |},
            success_status "PNG") /\
  PyImg {| mode := "RGB"; im_size := (2, 1)%nat; format := None; palette := [];
           pixels := [[255; 255; 255]; [40; 50; 60]] |}
  <> PyPath (composite_path (sample_env (Some "key")
                               (Ok (response_of [data_part [Byte.x02]])))).
Proof. split; [vm_compute; reflexivity | discriminate]. Qed.

(** * Outbound normalisation *)

Lemma BLEND8_transparent (s : Z) : BLEND8 0 255 s = 255.
Proof. unfold BLEND8, DIV255. rewrite Z.mul_0_r. reflexivity. Qed.

Lemma over_white_transparent (p : list Z) :
  (3 <= length p)%nat -> List.last p 0 = 0 -> over_white p = white.
Proof.
  intros Hlen Hlast. unfold over_white. rewrite Hlast.
  destruct p as [|r [|g [|b p]]]; simpl in Hlen; try lia.
  unfold blend_pixel, white. simpl. rewrite !BLEND8_transparent. reflexivity.
Qed.

Lemma over_white_length (p : list Z) :
  (3 <= length p)%nat -> length (over_white p) = 3%nat.
Proof.
  intros Hlen. unfold over_white, blend_pixel, white.
  destruct p as [|r [|g [|b p]]]; simpl in Hlen; try lia. reflexivity.
Qed.

Lemma BLEND8_opaque (o s : Z) : 0 <= s <= 255 -> BLEND8 255 o s = s.
Proof.
  intros Hs. unfold BLEND8. replace (255 - 255) with 0 by reflexivity.
  rewrite Z.mul_0_r, Z.add_0_l.
  assert (Hall : forallb (fun n => Z.eqb (DIV255 (Z.of_nat n * 255) mod 256) (Z.of_nat n))
                   (seq 0 256) = true) by (vm_compute; reflexivity).
  rewrite forallb_forall in Hall.
  specialize (Hall (Z.to_nat s)). rewrite Z2Nat.id in Hall by lia.
  apply Z.eqb_eq, Hall, in_seq. lia.
Qed.

(** Pillow's blend over white is the alpha blend rounded to the nearest
    integer, for every 8-bit colour and alpha. *)
Lemma BLEND8_over_white (a c : Z) :
  0 <= a <= 255 -> 0 <= c <= 255 -> blended_over_white c a (BLEND8 a 255 c).
Proof.
  intros Ha Hc.
  assert (Hall :
    forallb (fun m =>
      forallb (fun n =>
        let o := BLEND8 (Z.of_nat m) 255 (Z.of_nat n) in
        let x := Z.of_nat n * Z.of_nat m + 255 * (255 - Z.of_nat m) in
        (0 <=? o) && (o <=? 255) && (-127 <=? 255 * o - x) && (255 * o - x <=? 127))
        (seq 0 256)) (seq 0 256) = true) by (vm_compute; reflexivity).
  rewrite forallb_forall in Hall.
  specialize (Hall (Z.to_nat a)). rewrite forallb_forall in Hall.
  specialize (Hall ltac:(apply in_seq; lia) (Z.to_nat c) ltac:(apply in_seq; lia)).
  rewrite !Z2Nat.id in Hall by lia. cbv zeta in Hall.
  rewrite !andb_true_iff in Hall. unfold blended_over_white. lia.
Qed.

Lemma over_white_composited (src : list (list Z)) :
  composited_over_white src (map over_white src).
Proof.
  intros i r g b a Hi Hr Hg Hb Ha.
  exists (BLEND8 a 255 r), (BLEND8 a 255 g), (BLEND8 a 255 b).
  split; [|auto using BLEND8_over_white].
  rewrite list_lookup_fmap, Hi. reflexivity.
Qed.

Lemma over_white_opaque (src : list (list Z)) (i : nat) r g b :
  src !! i = Some [r; g; b; 255] ->
  0 <= r <= 255 -> 0 <= g <= 255 -> 0 <= b <= 255 ->
  map over_white src !! i = Some [r; g; b].
Proof.
  intros Hi Hr Hg Hb. rewrite list_lookup_fmap, Hi.
  cbn [fmap option_fmap option_map].
  unfold over_white, blend_pixel, white. cbn [List.last zip_with].
  rewrite !BLEND8_opaque by assumption. reflexivity.
Qed.

Lemma paste_pixels_white (src : list (list Z)) :
  paste_pixels (replicate (length src) white) src
    (map (fun p => List.last p 0) src)
  = map over_white src.
Proof.
  induction src as [|p src IH]; [reflexivity|].
  simpl. rewrite IH. reflexivity.
Qed.

Lemma bands_RGBA : bands "RGBA" = 4%nat.
Proof. reflexivity. Qed.

Lemma bands_RGB : bands "RGB" = 3%nat.
Proof. reflexivity. Qed.

(** The compositing branch (lines 247-252) on a well-formed "RGBA" image. *)
Lemma composite_rgba (src : Image) :
  wf_image src -> mode src = "RGBA" ->
  let out := paste_mask (Image_new "RGB" (im_size src) white) src (last_band src) in
  mode out = "RGB" /\ im_size out = im_size src /\ wf_image out /\
  pixels out = map over_white (pixels src).
Proof.
  intros [Hlen Hbands] Hmode out.
  assert (Hpx : pixels out = map over_white (pixels src)).
  { unfold out, paste_mask, Image_new, last_band. cbn [pixels im_size fst snd].
    rewrite <- Hlen. apply paste_pixels_white. }
  split; [reflexivity|]. split; [reflexivity|]. split; [|exact Hpx].
  split.
  - rewrite Hpx, length_map. exact Hlen.
  - rewrite Hpx. apply Forall_map. rewrite Hmode, bands_RGBA in Hbands.
    eapply Forall_impl; [exact Hbands|].
    intros p Hp. simpl. change (bands "RGB") with 3%nat.
    apply over_white_length. simpl in Hp. lia.
Qed.

Lemma str_in_cases3 (x a b c : string) :
  str_in x [a; b; c] = true -> x = a \/ x = b \/ x = c.
Proof.
  unfold str_in. simpl. rewrite orb_false_r, !orb_true_iff, !String.eqb_eq. tauto.
Qed.

(** C4: on a well-formed image, whenever the normalisation yields an image
    that image is "RGB" with three bands per pixel and the size of the
    input; it fails only where Pillow's [convert] does, so it always succeeds
    on "RGBA" and "RGB" input; an image with alpha ("RGBA" as it is, "P" and
    "LA" once converted to "RGBA") is composited over white with its alpha
    band as mask: every colour band c of a pixel with alpha a comes out as
    (c * a + 255 * (255 - a)) / 255 rounded to the nearest integer, so that
    an opaque pixel of an "RGBA" input keeps its colours and a fully
    transparent one comes out pure white; an "RGB" image is returned as it
    is, and every other mode goes through a direct conversion. *)
Theorem normalize_output_rgb E im :
  convert_sound E -> wf_image im ->
  (forall e, normalize_output E im = Err e ->
     Image_convert E "RGBA" im = Err e \/ Image_convert E "RGB" im = Err e) /\
  (mode im = "RGBA" \/ mode im = "RGB" -> exists out, normalize_output E im = Ok out) /\
  (forall out, normalize_output E im = Ok out ->
     mode out = "RGB" /\ im_size out = im_size im /\ wf_image out /\
     Forall (fun p => length p = 3%nat) (pixels out) /\
     (mode im = "RGBA" ->
        pixels out = map over_white (pixels im) /\
        composited_over_white (pixels im) (pixels out) /\
        (forall i r g b,
           pixels im !! i = Some [r; g; b; 255] ->
           0 <= r <= 255 -> 0 <= g <= 255 -> 0 <= b <= 255 ->
           pixels out !! i = Some [r; g; b]) /\
        forall i p, pixels im !! i = Some p -> List.last p 0 = 0 ->
                    pixels out !! i = Some [255; 255; 255]) /\
     (mode im = "P" \/ mode im = "LA" ->
        exists rgba, Image_convert E "RGBA" im = Ok rgba /\
                     pixels out = map over_white (pixels rgba) /\
                     composited_over_white (pixels rgba) (pixels out)) /\
     (mode im = "RGB" -> out = im) /\
     (str_in (mode im) ["RGBA"; "P"; "LA"; "RGB"] = false ->
        Image_convert E "RGB" im = Ok out)).
Proof.
  intros Hconv Hwf.
  assert (Hthree : forall out, wf_image out -> mode out = "RGB" ->
                     Forall (fun p => length p = 3%nat) (pixels out)).
  { intros out [_ Hb] Hm. rewrite Hm in Hb. exact Hb. }
  unfold normalize_output.
  destruct (str_in (mode im) ["RGBA"; "P"; "LA"]) eqn:Hin.
  - (* modes with alpha or palette *)
    destruct (str_in (mode im) ["P"; "LA"]) eqn:Hpl.
    + (* converted to RGBA first *)
      assert (Hmode : mode im = "P" \/ mode im = "LA").
      { unfold str_in in Hpl. simpl in Hpl.
        rewrite orb_false_r, !orb_true_iff, !String.eqb_eq in Hpl. exact Hpl. }
      destruct (Image_convert E "RGBA" im) as [rgba|e] eqn:Hc.
      * destruct (Hconv _ _ _ Hwf Hc) as (Hm & Hsz & Hwf').
        rewrite Hm. cbn [String.eqb Ascii.eqb Bool.eqb andb].
        destruct (composite_rgba rgba Hwf' Hm) as (Ho1 & Ho2 & Ho3 & Ho4).
        split; [discriminate|]. split.
        { intros [H|H]; destruct Hmode as [H'|H']; rewrite H in H'; discriminate. }
        intros out [= <-].
        split; [exact Ho1|]. split; [congruence|]. split; [exact Ho3|].
        split; [apply Hthree; assumption|]. split.
        { intros H; destruct Hmode as [H'|H']; rewrite H in H'; discriminate. }
        split.
        { intros _. exists rgba. split; [reflexivity|]. split; [exact Ho4|].
          rewrite Ho4. apply over_white_composited. }
        split.
        { intros H; destruct Hmode as [H'|H']; rewrite H in H'; discriminate. }
        intros H. exfalso. unfold str_in in H. simpl in H.
        destruct Hmode as [H'|H']; rewrite H' in H; discriminate.
      * split; [intros e' [= <-]; left; reflexivity|]. split.
        { intros [H|H]; destruct Hmode as [H'|H']; rewrite H in H'; discriminate. }
        intros out; discriminate.
    + (* RGBA as it is *)
      assert (Hmode : mode im = "RGBA").
      { destruct (str_in_cases3 _ _ _ _ Hin) as [H|[H|H]]; [exact H| |];
          rewrite H in Hpl; discriminate. }
      rewrite Hmode. cbn [String.eqb Ascii.eqb Bool.eqb andb].
      destruct (composite_rgba im Hwf Hmode) as (Ho1 & Ho2 & Ho3 & Ho4).
      split; [discriminate|]. split; [intros _; eexists; reflexivity|].
      intros out [= <-].
      split; [exact Ho1|]. split; [exact Ho2|]. split; [exact Ho3|].
      split; [apply Hthree; assumption|]. split.
      { intros _. split; [exact Ho4|].
        split; [rewrite Ho4; apply over_white_composited|].
        split; [intros i r g b Hi Hr Hg Hb; rewrite Ho4;
                apply over_white_opaque; assumption|].
        intros i p Hi Hlast. rewrite Ho4, list_lookup_fmap, Hi. simpl.
        f_equal. apply over_white_transparent; [|exact Hlast].
        destruct Hwf as [_ Hb]. rewrite Hmode, bands_RGBA in Hb.
        rewrite Forall_lookup in Hb. rewrite (Hb i p Hi). lia. }
      split.
      { intros [H|H]; discriminate. }
      split; [intros H; discriminate|].
      intros H. discriminate.
  - destruct (String.eqb (mode im) "RGB") eqn:Hrgb; cbn [negb].
    + (* RGB passes through *)
      apply String.eqb_eq in Hrgb.
      split; [discriminate|]. split; [intros _; eexists; reflexivity|].
      intros out [= <-].
      split; [exact Hrgb|]. split; [reflexivity|]. split; [exact Hwf|].
      split; [apply Hthree; assumption|]. split.
      { intros H. rewrite Hrgb in H. discriminate. }
      split.
      { intros [H|H]; rewrite Hrgb in H; discriminate. }
      split; [reflexivity|].
      intros H. rewrite Hrgb in H. discriminate.
    + (* direct conversion *)
      split; [intros e He; right; exact He|]. split.
      { intros [H|H]; rewrite H in *; discriminate. }
      intros out Hc. destruct (Hconv _ _ _ Hwf Hc) as (Hm & Hsz & Hwf').
      split; [exact Hm|]. split; [exact Hsz|]. split; [exact Hwf'|].
      split; [apply Hthree; assumption|]. split.
      { intros H. rewrite H in Hin. discriminate. }
      split.
      { intros [H|H]; rewrite H in Hin; discriminate. }
      split; [intros H; rewrite H in Hrgb; discriminate|].
      intros _. exact Hc.
Qed.

Lemma sample_convert_sound key reply : convert_sound (sample_env key reply).
Proof.
  intros m im im' [Hlen Hb] Hc. cbn [Image_convert sample_env] in Hc.
  unfold sample_convert in Hc.
  destruct (String.eqb (mode im) "L" && String.eqb m "RGB") eqn:H1.
  - apply andb_true_iff in H1 as [_ Hm%String.eqb_eq]. subst m.
    injection Hc as <-. split; [reflexivity|]. split; [reflexivity|].
    split; cbn [pixels im_size mode].
    + rewrite length_map. exact Hlen.
    + apply Forall_map, Forall_forall. intros p _. reflexivity.
  - destruct (String.eqb (mode im) "LA" && String.eqb m "RGBA") eqn:H2; [|discriminate].
    apply andb_true_iff in H2 as [_ Hm%String.eqb_eq]. subst m.
    injection Hc as <-. split; [reflexivity|]. split; [reflexivity|].
    split; cbn [pixels im_size mode].
    + rewrite length_map. exact Hlen.
    + apply Forall_map, Forall_forall. intros p _. reflexivity.
Qed.

Lemma sample_rgba_wf : wf_image sample_rgba.
Proof. split; [reflexivity|]. repeat constructor. Qed.

Lemma normalize_output_rgb_witness :
  convert_sound (sample_env None (Ok (response_of []))) /\
  wf_image sample_rgba /\
  exists out,
    normalize_output (sample_env None (Ok (response_of []))) sample_rgba = Ok out /\
    pixels out !! 0%nat = Some [255; 255; 255] /\
    pixels out !! 1%nat = Some [40; 50; 60].
Proof.
  split; [apply sample_convert_sound|]. split; [apply sample_rgba_wf|].
  destruct (normalize_output_rgb (sample_env None (Ok (response_of []))) sample_rgba
              (sample_convert_sound _ _) sample_rgba_wf)
    as (_ & Hsome & Hout).
  destruct (Hsome (or_introl eq_refl)) as [out Hnorm].
  destruct (Hout out Hnorm) as (_ & _ & _ & _ & Hrgba & _).
  destruct (Hrgba eq_refl) as (_ & _ & Hopaque & Hclear).
  exists out. split; [exact Hnorm|]. split.
  - apply (Hclear 0%nat [10; 20; 30; 0]); reflexivity.
  - apply (Hopaque 1%nat 40 50 60); [reflexivity|lia..].
Defined.


(** * The response interpreter *)

Section Interpreter.

Variable E : Env.
Variable d : bool.

Lemma traced_logged f tr s : logged (traced f tr) s = traced f (tr ++ [s]).
Proof. unfold logged, traced. simpl. rewrite <- app_assoc. reflexivity. Qed.

Lemma traced_nil f : traced f [] = f.
Proof. unfold traced. rewrite app_nil_r. destruct f; reflexivity. Qed.

Lemma logged_traced f s : logged f s = traced f [s].
Proof. reflexivity. Qed.

Lemma traced_traced f tr tr' : traced (traced f tr) tr' = traced f (tr ++ tr').
Proof. unfold traced. simpl. rewrite <- app_assoc. reflexivity. Qed.

(** A part that carries nothing is logged and passed over. *)
Lemma scan_parts_skip part i f :
  carries part = false ->
  exists s, forall rest,
    scan_parts E d i (part :: rest) f = scan_parts E d (S i) rest (logged f s).
Proof.
  unfold carries. intros Hc. apply orb_false_iff in Hc as [Ht Hd].
  destruct (text part) eqn:Et; [discriminate|].
  destruct (inline_data part) eqn:Ed; [discriminate|].
  eexists. intros rest. cbn [scan_parts]. rewrite Et, Ed. py_run. reflexivity.
Qed.

(** A part with text ends the invocation with that text. *)
Lemma scan_parts_text part i f t :
  text part = Some t ->
  exists s1 s2, forall rest,
    scan_parts E d i (part :: rest) f =
    (Return (PyNone,
             status_with_debug d ("Gemini Response (Text Only): " +:+ t)
               (debug_info (traced f [s1; s2]))),
     traced f [s1; s2]).
Proof.
  intros Et. eexists _, _. intros rest. cbn [scan_parts]. rewrite Et. py_run.
  rewrite !logged_traced, traced_traced.
  apply bind_return_run. apply return_text_run.
Qed.

(** The [try] of line 230 always ends in a [return]. *)
Lemma decode_inline_data_returns b f :
  exists r f', decode_inline_data E d b f = (Return r, f').
Proof.
  unfold decode_inline_data, try_except.
  destruct (Image_open E b) as [image0|e]; py_run; [|eauto].
  destruct (normalize_output E image0) as [image1|e]; py_run; [|eauto].
  destruct (png_encode E (Some 1%nat) image1) as [encoded|e]; py_run; [|eauto].
  unfold write_store. py_run. rewrite bind_run.
  unfold open_composite. cbn [world result_store logged].
  destruct (Image_open E encoded) as [saved|e]; cbn [lift mret py_ret raise];
    py_run; [|eauto].
  unfold return_success. eauto.
Qed.

(** With its bytes in hand the [elif] branch is the [try] of line 230;
    without them [len] raises at line 228. *)
Lemma handle_inline_data_data blob b f :
  data blob = Some b -> handle_inline_data E d blob f = decode_inline_data E d b f.
Proof.
  intros Hd. unfold handle_inline_data, blob_data. rewrite Hd. py_run. reflexivity.
Qed.

Lemma handle_inline_data_no_data blob f :
  data blob = None -> handle_inline_data E d blob f = (Raise no_len, f).
Proof.
  intros Hd. unfold handle_inline_data, blob_data. rewrite Hd. py_run. reflexivity.
Qed.

(** The [elif] branch never falls through to the next part: it returns, or
    raises when the blob has no data. *)
Lemma handle_inline_data_ends blob f :
  (exists b r f', data blob = Some b /\
                  handle_inline_data E d blob f = (Return r, f')) \/
  (data blob = None /\ handle_inline_data E d blob f = (Raise no_len, f)).
Proof.
  destruct (data blob) as [b|] eqn:Hd.
  - left. destruct (decode_inline_data_returns b f) as (r & f' & Hr).
    exists b, r, f'. split; [reflexivity|].
    rewrite (handle_inline_data_data blob b f Hd). exact Hr.
  - right. split; [reflexivity | apply handle_inline_data_no_data, Hd].
Qed.

Lemma handle_inline_data_bind blob (k : unit -> py retval unit) f :
  (handle_inline_data E d blob ≫= k) f = handle_inline_data E d blob f.
Proof.
  destruct (handle_inline_data_ends blob f)
    as [(b & r & f' & _ & Hr)|[_ Hr]]; rewrite Hr.
  - apply bind_return_run. exact Hr.
  - apply bind_raise_run. exact Hr.
Qed.

(** A part with inline data and no text hands the invocation to the [elif]
    branch. *)
Lemma scan_parts_data part i f blob :
  text part = None -> inline_data part = Some blob ->
  exists s, forall rest,
    scan_parts E d i (part :: rest) f = handle_inline_data E d blob (traced f [s]).
Proof.
  intros Et Ed. eexists. intros rest. cbn [scan_parts]. rewrite Et, Ed. py_run.
  rewrite logged_traced. apply handle_inline_data_bind.
Qed.

(** The loop, by the first part that carries text or data. *)
Lemma scan_parts_find ps : forall i f,
  match List.find carries ps with
  | None => exists trace, scan_parts E d i ps f = (Normal tt, traced f trace)
  | Some part =>
      match text part with
      | Some t =>
          exists trace,
            scan_parts E d i ps f =
            (Return (PyNone,
                     status_with_debug d ("Gemini Response (Text Only): " +:+ t)
                       (debug_info (traced f trace))),
             traced f trace)
      | None =>
          exists blob trace,
            inline_data part = Some blob /\
            scan_parts E d i ps f = handle_inline_data E d blob (traced f trace)
      end
  end.
Proof.
  induction ps as [|part rest IH]; intros i f.
  - exists []. rewrite traced_nil. reflexivity.
  - cbn [List.find]. destruct (carries part) eqn:Hc.
    + destruct (text part) as [t|] eqn:Et.
      * destruct (scan_parts_text part i f t Et) as (s1 & s2 & Hs).
        exists [s1; s2]. apply Hs.
      * unfold carries in Hc. rewrite Et in Hc. cbn [is_not_None orb] in Hc.
        destruct (inline_data part) as [blob|] eqn:Ed; [|discriminate].
        destruct (scan_parts_data part i f blob Et Ed) as [s Hs].
        exists blob, [s]. split; [reflexivity | apply Hs].
    + destruct (scan_parts_skip part i f Hc) as [s Hs]. rewrite Hs.
      specialize (IH (S i) (logged f s)).
      destruct (List.find carries rest) as [part'|].
      * destruct (text part') as [t|].
        -- destruct IH as [trace IH]. exists (s :: trace).
           rewrite IH, logged_traced, traced_traced. reflexivity.
        -- destruct IH as (blob & trace & Hblob & IH). exists blob, (s :: trace).
           split; [exact Hblob|].
           rewrite IH, logged_traced, traced_traced. reflexivity.
      * destruct IH as [trace IH]. exists (s :: trace).
        rewrite IH, logged_traced, traced_traced. reflexivity.
Qed.


Lemma handle_inline_data_decode_error blob b f e :
  data blob = Some b -> Image_open E b = Err e ->
  exists trace,
    handle_inline_data E d blob f =
    (Return (PyNone,
             status_with_debug d
               ("Failed to process generated image: " +:+ exn_str e)
               (debug_info (traced f trace))),
     traced f trace).
Proof.
  intros Hd Hopen. eexists [_]. rewrite (handle_inline_data_data blob b f Hd).
  unfold decode_inline_data, try_except.
  rewrite Hopen. py_run. reflexivity.
Qed.

Lemma handle_inline_data_success blob b f image0 image1 encoded saved :
  data blob = Some b -> Image_open E b = Ok image0 ->
  normalize_output E image0 = Ok image1 ->
  png_encode E (Some 1%nat) image1 = Ok encoded ->
  Image_open E encoded = Ok saved ->
  exists trace,
    handle_inline_data E d blob f =
    (Return (PyImg image1,
             status_with_debug d (success_status (py_str_opt (format image0)))
               (last_n 8 (debug_info f ++ trace))),
     {| world := stored (world f) encoded; debug_info := debug_info f ++ trace |}).
Proof.
  intros Hd Hopen Hnorm Henc Hsaved. eexists [_; _; _; _; _].
  rewrite (handle_inline_data_data blob b f Hd).
  unfold decode_inline_data, try_except.
  rewrite Hopen. py_run. rewrite Hnorm. py_run. rewrite Henc. py_run.
  unfold write_store. py_run. rewrite bind_run.
  unfold open_composite. cbn [world result_store logged]. rewrite Hsaved.
  cbn [lift mret py_ret]. py_run.
  unfold return_success, logged, stored. cbn [world debug_info].
  rewrite <- !app_assoc. reflexivity.
Qed.

Lemma interpret_response_scan response candidate others ps f :
  candidates response = Some (candidate :: others) ->
  content_parts candidate = Ok ps ->
  exists s, interpret_response E d response f =
    (scan_parts E d 0 ps;; error_exit d no_image_msg) (traced f [s]).
Proof.
  intros Hc Hps. unfold interpret_response. rewrite Hc, Hps. eexists. py_run.
  reflexivity.
Qed.

(** A first candidate without content, or whose content has no list of
    parts, makes line 202 raise. *)
Lemma interpret_response_no_parts response candidate others e f :
  candidates response = Some (candidate :: others) ->
  content_parts candidate = Err e ->
  interpret_response E d response f = (Raise e, f).
Proof.
  intros Hc Hps. unfold interpret_response. rewrite Hc, Hps. py_run. reflexivity.
Qed.

End Interpreter.

(** What is done with a response whose first candidate has a list of parts,
    by the first part that carries text or inline data. *)
Lemma interpret_response_first_part E d response candidate others ps f :
  candidates response = Some (candidate :: others) ->
  content_parts candidate = Ok ps ->
  match List.find carries ps with
  | None =>
      exists trace,
        interpret_response E d response f =
        (Return (PyNone,
                 status_with_debug d no_image_msg (debug_info (traced f trace))),
         traced f trace)
  | Some part =>
      match text part with
      | Some t =>
          exists trace,
            interpret_response E d response f =
            (Return (PyNone,
                     status_with_debug d ("Gemini Response (Text Only): " +:+ t)
                       (debug_info (traced f trace))),
             traced f trace)
      | None =>
          exists blob trace,
            inline_data part = Some blob /\
            interpret_response E d response f
            = handle_inline_data E d blob (traced f trace) /\
            (data blob = None ->
               interpret_response E d response f = (Raise no_len, traced f trace)) /\
            (forall b e, data blob = Some b -> Image_open E b = Err e ->
               exists trace',
                 interpret_response E d response f =
                 (Return (PyNone,
                          status_with_debug d
                            ("Failed to process generated image: " +:+ exn_str e)
                            (debug_info (traced f trace'))),
                  traced f trace')) /\
            (forall b image0 image1 encoded saved,
               data blob = Some b ->
               Image_open E b = Ok image0 ->
               normalize_output E image0 = Ok image1 ->
               png_encode E (Some 1%nat) image1 = Ok encoded ->
               Image_open E encoded = Ok saved ->
               exists trace',
                 interpret_response E d response f =
                 (Return (PyImg image1,
                          status_with_debug d
                            (success_status (py_str_opt (format image0)))
                            (last_n 8 (debug_info (traced f trace')))),
                  {| world := stored (world f) encoded;
                     debug_info := debug_info (traced f trace') |}))
      end
  end.
Proof.
  intros Hc Hps.
  destruct (interpret_response_scan E d response candidate others ps f Hc Hps)
    as [s Hs].
  rewrite Hs. clear Hs.
  pose proof (scan_parts_find E d ps 0%nat (traced f [s])) as Hscan.
  destruct (List.find carries ps) as [part|].
  - destruct (text part) as [t|].
    + destruct Hscan as [trace Hscan]. exists (s :: trace).
      rewrite (bind_return_run _ _ _ _ _ Hscan), traced_traced. reflexivity.
    + destruct Hscan as (blob & trace & Hblob & Hscan).
      exists blob, (s :: trace). split; [exact Hblob|].
      assert (Hrun : (scan_parts E d 0 ps;; error_exit d no_image_msg)
                       (traced f [s])
                     = handle_inline_data E d blob (traced f (s :: trace))).
      { rewrite traced_traced in Hscan. cbn [app] in Hscan.
        destruct (handle_inline_data_ends E d blob (traced f (s :: trace)))
          as [(b & r & f' & _ & Hr)|[_ Hr]]; rewrite Hr.
        - apply bind_return_run. rewrite Hscan. exact Hr.
        - apply bind_raise_run. rewrite Hscan. exact Hr. }
      rewrite Hrun. split; [reflexivity|]. split; [|split].
      * intros Hd. apply handle_inline_data_no_data, Hd.
      * intros b e Hd He.
        destruct (handle_inline_data_decode_error E d blob b
                    (traced f (s :: trace)) e Hd He) as [tr Htr].
        exists ((s :: trace) ++ tr). rewrite Htr, traced_traced. reflexivity.
      * intros b image0 image1 encoded saved Hd H0 H1 H2 H3.
        destruct (handle_inline_data_success E d blob b (traced f (s :: trace))
                    image0 image1 encoded saved Hd H0 H1 H2 H3) as [tr Htr].
        exists ((s :: trace) ++ tr). rewrite Htr. unfold traced.
        cbn [world debug_info]. rewrite <- !app_assoc. reflexivity.
  - destruct Hscan as [trace Hscan]. eexists (s :: trace ++ [_]).
    rewrite bind_run, Hscan, error_exit_run.
    unfold logged, traced. cbn [world debug_info].
    rewrite <- !app_assoc. reflexivity.
Qed.


(** * From the response to the result of the invocation *)

Section Glue.

Variable E : Env.
Variable d : bool.

Lemma to_pil_lift x : to_pil E x = lift (pil_of E x).
Proof. destruct x; reflexivity. Qed.

Lemma save_to_temp_ok label im enc f :
  png_encode E None im = Ok enc ->
  exists n f', save_to_temp E label im f = (Normal n, f') /\
               same_store (world f) (world f').
Proof.
  intros Henc. unfold save_to_temp. rewrite bind_run. cbn [create_temp].
  rewrite Henc. py_run. unfold write_temp. py_run.
  eexists _, _. split; reflexivity.
Qed.

Lemma cleanup_normal n1 n2 f :
  exists f', cleanup E n1 n2 f = (Normal tt, f') /\ same_store (world f) (world f').
Proof.
  pose proof (cleanup_same_store E n1 n2 f) as Hstore.
  assert (Hnever : returns (fun _ _ => False)
                     (os_unlink E n1;; os_unlink E n2;;
                      debug_append "🧹 Temporary files cleaned up")).
  { repeat (apply returns_bind; [|intros ?]);
      auto using returns_os_unlink, returns_debug_append. }
  specialize (Hnever f).
  unfold cleanup, try_except in *.
  destruct ((os_unlink E n1;; os_unlink E n2;;
             debug_append "🧹 Temporary files cleaned up") f) as [[[]|r|e] f'].
  - eexists. split; [reflexivity | exact Hstore].
  - contradiction.
  - eexists. split; [reflexivity | exact Hstore].
Qed.

(** Once the response is in, the invocation ends as its interpretation
    ends, and the clean-up leaves the result store as the interpretation
    left it. *)
Lemma generate_interprets ann snd box response f :
  response_received E ann snd box response ->
  exists f0,
    same_store (world f) (world f0) /\
    forall r f1,
      interpret_response E d response f0 = (Return r, f1) ->
      exists f2, generate E d ann snd box f = (Return r, f2) /\
                 same_store (world f1) (world f2).
Proof.
  intros (key & first_img & im1 & enc1 & im2 & enc2 &
          Hkey & Hne & Hclient & Himg & Hpil1 & Henc1 & Hpil2 & Henc2 & Hgen).
  unfold generate. rewrite Hkey.
  destruct key as [|c key]; [congruence|].
  rewrite Hclient, Himg, !to_pil_lift, Hpil1, Hpil2.
  match goal with
  | |- context [same_store (world f) _] =>
      set (f_a := logged (logged f "✅ Google API key found") "✅ Gemini client initialized")
  end.
  destruct (save_to_temp_ok "First" im1 enc1 f_a Henc1) as (n1 & f_b & Hs1 & Hst1).
  destruct (save_to_temp_ok "Second" im2 enc2 f_b Henc2) as (n2 & f_c & Hs2 & Hst2).
  eexists. split; cycle 1.
  - intros r f1 Hint.
    destruct (cleanup_normal n1 n2 f1) as (f2 & Hclean & Hst3).
    exists f2. split; [|exact Hst3].
    py_run. rewrite bind_run. unfold try_except at 1. py_run.
    rewrite debug_append_run. cbv beta iota. py_run.
    fold f_a. rewrite bind_run, Hs1. py_run. rewrite bind_run, Hs2. py_run.
    unfold try_finally, try_except, call_and_interpret, call_generate_content.
    py_run. rewrite Hgen. py_run. rewrite Hint, Hclean. reflexivity.
  - unfold same_store in *. cbn [world logged result_store].
    rewrite Hst2, Hst1. reflexivity.
Qed.

(** The same, with the other way the interpretation may end: an exception
    it raises is answered by the handler of line 291. *)
Lemma generate_interprets_ends ann snd box response f :
  response_received E ann snd box response ->
  exists f0,
    same_store (world f) (world f0) /\
    (forall r f1,
       interpret_response E d response f0 = (Return r, f1) ->
       exists f2, generate E d ann snd box f = (Return r, f2) /\
                  same_store (world f1) (world f2)) /\
    (forall e f1,
       interpret_response E d response f0 = (Raise e, f1) ->
       exists trace f2,
         generate E d ann snd box f =
         (Return (PyNone,
                  status_with_debug d ("Gemini API error: " +:+ exn_str e) trace),
          f2) /\
         same_store (world f1) (world f2)).
Proof.
  intros (key & first_img & im1 & enc1 & im2 & enc2 &
          Hkey & Hne & Hclient & Himg & Hpil1 & Henc1 & Hpil2 & Henc2 & Hgen).
  unfold generate. rewrite Hkey.
  destruct key as [|c key]; [congruence|].
  rewrite Hclient, Himg, !to_pil_lift, Hpil1, Hpil2.
  match goal with
  | |- context [same_store (world f) _] =>
      set (f_a := logged (logged f "✅ Google API key found") "✅ Gemini client initialized")
  end.
  destruct (save_to_temp_ok "First" im1 enc1 f_a Henc1) as (n1 & f_b & Hs1 & Hst1).
  destruct (save_to_temp_ok "Second" im2 enc2 f_b Henc2) as (n2 & f_c & Hs2 & Hst2).
  eexists. split; [|split]; cycle 1.
  - intros r f1 Hint.
    destruct (cleanup_normal n1 n2 f1) as (f2 & Hclean & Hst3).
    exists f2. split; [|exact Hst3].
    py_run. rewrite bind_run. unfold try_except at 1. py_run.
    rewrite debug_append_run. cbv beta iota. py_run.
    fold f_a. rewrite bind_run, Hs1. py_run. rewrite bind_run, Hs2. py_run.
    unfold try_finally, try_except, call_and_interpret, call_generate_content.
    py_run. rewrite Hgen. py_run. rewrite Hint, Hclean. reflexivity.
  - intros e f1 Hint.
    destruct (cleanup_normal n1 n2
                (logged f1 ("❌ " +:+ "Gemini API error: " +:+ exn_str e)))
      as (f2 & Hclean & Hst3).
    eexists _, f2. split; [|exact Hst3].
    py_run. rewrite bind_run. unfold try_except at 1. py_run.
    rewrite debug_append_run. cbv beta iota. py_run.
    fold f_a. rewrite bind_run, Hs1. py_run. rewrite bind_run, Hs2. py_run.
    unfold try_finally, try_except, call_and_interpret, call_generate_content.
    py_run. rewrite Hgen. py_run. rewrite Hint. py_run. rewrite Hclean. reflexivity.
  - unfold same_store in *. cbn [world logged result_store].
    rewrite Hst2, Hst1. reflexivity.
Qed.

End Glue.


(** The invocation returns what its body returns, in the world the body
    leaves. *)
Lemma process_images_generates E d ann snd box rest w :
  boxes ann = Some (box :: rest) -> empty_array snd = false ->
  exists f0, world f0 = w /\
    forall r f', generate E d ann snd box f0 = (Return r, f') ->
                 process_images E (Some ann) (Some snd) d w = (Return r, world f').
Proof.
  intros Hb He.
  destruct (process_body_boxes E d ann snd box rest
              (logged {| world := w; debug_info := [] |}
                 "🚀 Function execution started") Hb He) as (f0 & Hw & Heq).
  exists f0. split; [exact Hw|]. intros r f' Hgen.
  apply run_guarded_return.
  - rewrite Heq. exact Hgen.
  - apply both_falsy_truthy. eapply truthy_with_boxes. exact Hb.
Qed.

(** The invocation ends as the interpretation of the response ends: what
    is returned is returned, what is raised comes back as the status of the
    handler of line 291, and the result store is the one the interpretation
    leaves. *)
Lemma process_images_interprets E d ann snd box rest response w :
  boxes ann = Some (box :: rest) -> empty_array snd = false ->
  response_received E ann snd box response ->
  exists f1,
    result_store (world f1) = result_store w /\
    (forall r f2,
       interpret_response E d response f1 = (Return r, f2) ->
       exists w', process_images E (Some ann) (Some snd) d w = (Return r, w') /\
                  result_store w' = result_store (world f2)) /\
    (forall e f2,
       interpret_response E d response f1 = (Raise e, f2) ->
       exists trace w',
         process_images E (Some ann) (Some snd) d w =
         (Return (PyNone,
                  status_with_debug d ("Gemini API error: " +:+ exn_str e) trace),
          w') /\
         result_store w' = result_store (world f2)).
Proof.
  intros Hb He Hrecv.
  destruct (process_images_generates E d ann snd box rest w Hb He)
    as (f0 & Hw0 & Hproc).
  destruct (generate_interprets_ends E d ann snd box response f0 Hrecv)
    as (f1 & Hst1 & Hret & Hraise).
  exists f1. split; [rewrite <- Hw0; exact Hst1|]. split.
  - intros r f2 Hint. destruct (Hret r f2 Hint) as (f3 & Hg & Hst3).
    exists (world f3). split; [apply Hproc; exact Hg | exact Hst3].
  - intros e f2 Hint. destruct (Hraise e f2 Hint) as (trace & f3 & Hg & Hst3).
    exists trace, (world f3). split; [apply Hproc; exact Hg | exact Hst3].
Qed.


Lemma sample_response_received reply :
  response_received (sample_env (Some "key") (Ok reply))
    (sample_annotation [sample_box]) (NdArray sample_array) sample_box reply.
Proof.
  exists "key", (Pil sample_rgb), sample_rgb, [Byte.x01], sample_rgb, [Byte.x01].
  repeat split; try reflexivity. discriminate.
Qed.


(** C1: a first candidate without content, or whose content has no list of
    parts (what the service sends when it produces nothing), has no part that
    carries text or data, yet the invocation does not answer "No image was
    generated": line 202 raises, and the handler of line 291 answers
    "Gemini API error: ..." with the message of the exception, though the
    call itself succeeded. No image is returned and the result store is as it
    was. *)
Theorem missing_parts_reported_as_api_error
    E d ann snd box rest response candidate others w :
  boxes ann = Some (box :: rest) -> empty_array snd = false ->
  response_received E ann snd box response ->
  candidates response = Some (candidate :: others) ->
  content candidate = None \/ content candidate = Some {| parts := None |} ->
  exists trace w',
    process_images E (Some ann) (Some snd) d w =
    (Return (PyNone,
             status_with_debug d
               ("Gemini API error: " +:+
                match content candidate with
                | None => "'NoneType' object has no attribute 'parts'"
                | Some _ => "object of type 'NoneType' has no len()"
                end)
               trace),
     w') /\
    result_store w' = result_store w /\
    forall trace',
      status_with_debug d
        ("Gemini API error: " +:+
         match content candidate with
         | None => "'NoneType' object has no attribute 'parts'"
         | Some _ => "object of type 'NoneType' has no len()"
         end)
        trace
      <> status_with_debug d no_image_msg trace'.
Proof.
  intros Hb He Hrecv Hc Hcontent.
  destruct (process_images_interprets E d ann snd box rest response w Hb He Hrecv)
    as (f1 & Hstore1 & _ & Hfails).
  assert (Hps : exists e, content_parts candidate = Err e /\
                  exn_str e = match content candidate with
                              | None => "'NoneType' object has no attribute 'parts'"
                              | Some _ => "object of type 'NoneType' has no len()"
                              end).
  { unfold content_parts. destruct Hcontent as [-> | ->]; eexists; split; reflexivity. }
  destruct Hps as (e & Hps & Hstr).
  destruct (Hfails e f1 (interpret_response_no_parts E d response candidate others
                           e f1 Hc Hps)) as (trace & w' & Hrun & Hst).
  rewrite Hstr in Hrun.
  exists trace, w'. split; [exact Hrun|]. split; [rewrite Hst; exact Hstore1|].
  intros trace' Habs. destruct d; cbn [status_with_debug] in Habs;
    destruct (content candidate); discriminate Habs.
Qed.

Lemma missing_parts_reported_as_api_error_witness :
  exists trace w',
    process_images
      (sample_env (Some "key") (Ok {| candidates := Some [ {| content := None |} ] |}))
      (Some (sample_annotation [sample_box])) (Some (NdArray sample_array)) false
      empty_world
    = (Return (PyNone,
               status_with_debug false
                 "Gemini API error: 'NoneType' object has no attribute 'parts'" trace),
       w') /\
    result_store w' = result_store empty_world.
Proof.
  destruct (missing_parts_reported_as_api_error
              (sample_env (Some "key")
                 (Ok {| candidates := Some [ {| content := None |} ] |}))
              false (sample_annotation [sample_box]) (NdArray sample_array)
              sample_box []
              {| candidates := Some [ {| content := None |} ] |}
              {| content := None |} [] empty_world
              eq_refl eq_refl (sample_response_received _) eq_refl
              (or_introl eq_refl))
    as (trace & w' & Hrun & Hst & _).
  exists trace, w'. split; [exact Hrun | exact Hst].
Defined.

(** * Temporary files *)

Lemma run_guarded_raise E d a s w e f' :
  process_body E d a s (logged {| world := w; debug_info := [] |}
                          "🚀 Function execution started") = (Raise e, f') ->
  both_falsy E a s = Ok false ->
  exists trace,
    process_images E a s d w =
    (Return (PyNone, status_with_debug d ("Unexpected error: " +:+ exn_str e) trace),
     world f').
Proof.
  intros Hbody Hgate. eexists. rewrite process_images_dispatch, Hgate.
  unfold run. rewrite bind_run, debug_append_run. unfold try_except.
  rewrite Hbody, error_exit_run. reflexivity.
Qed.

(** The defect behind C3, for every environment: when the PNG encoder
    raises on the first image, the invocation ends with the "Unexpected
    error" status and the temporary file it had created is still there. *)
Lemma temp_file_survives_encoder_error E d ann snd box rest w key first_img im1 e :
  boxes ann = Some (box :: rest) -> empty_array snd = false ->
  GOOGLE_API_KEY E = Some key -> key <> "" -> genai_Client E key = None ->
  image ann = Some first_img -> pil_of E first_img = Ok im1 ->
  png_encode E None im1 = Err e ->
  exists trace,
    process_images E (Some ann) (Some snd) d w =
    (Return (PyNone, status_with_debug d ("Unexpected error: " +:+ exn_str e) trace),
     {| tmp_files := <[fresh (dom (tmp_files w)) := []]> (tmp_files w);
        result_store := result_store w;
        api_calls := api_calls w |}).
Proof.
  intros Hb He Hkey Hne Hclient Himg Hpil Henc.
  destruct (process_body_boxes E d ann snd box rest
              (logged {| world := w; debug_info := [] |}
                 "🚀 Function execution started") Hb He) as (f0 & Hw & Heq).
  assert (Hgen : exists f',
             generate E d ann snd box f0 = (Raise e, f') /\
             world f' = {| tmp_files := <[fresh (dom (tmp_files w)) := []]> (tmp_files w);
                           result_store := result_store w;
                           api_calls := api_calls w |}).
  { unfold generate. rewrite Hkey. destruct key as [|c key]; [congruence|].
    rewrite Hclient, Himg, !to_pil_lift, Hpil.
    eexists. split.
    - py_run. rewrite bind_run. unfold try_except at 1. py_run.
      rewrite debug_append_run. cbv beta iota. py_run.
      unfold save_to_temp. py_run. rewrite bind_run. cbn [create_temp].
      rewrite Henc. py_run. reflexivity.
    - cbn [world logged]. rewrite Hw. reflexivity. }
  destruct Hgen as (f' & Hgen & Hworld).
  rewrite <- Heq in Hgen.
  destruct (run_guarded_raise E d _ _ w e f' Hgen
              (both_falsy_truthy E _ _ (truthy_with_boxes ann _ Hb))) as [trace Hrun].
  exists trace. rewrite Hrun, Hworld. reflexivity.
Qed.

(** C3 (at the failing input): the first image cannot be written as PNG
    (mode "CMYK"); the temporary file made for it exists when the encoder
    raises, the outer handler turns the exception into a status, and the
    file is still there when the invocation ends. *)
Theorem temp_file_left_behind :
  let E := sample_env (Some "key") (Ok (response_of [text_part "ready"])) in
  let annotated_image :=
    {| image := Some (Pil sample_cmyk); boxes := Some [sample_box] |} in
  let outcome :=
    process_images E (Some annotated_image) (Some (NdArray sample_array))
      false empty_world in
  tmp_files empty_world = ∅ /\
  outcome.1 = Return (PyNone, "Unexpected error: cannot write mode CMYK as PNG") /\
  tmp_files outcome.2 = {[ 0%nat := [] ]} /\
  api_calls outcome.2 = [].
Proof. vm_compute. repeat split; reflexivity. Qed.

(** * Every path returns *)

Section Ends.

Context {R : Type}.

Lemma ends_return {A} (r : R) : ends (return_ r : py R A).
Proof. intros f a. discriminate. Qed.

Lemma ends_raise {A} (e : exn) : ends (raise e : py R A).
Proof. intros f a. discriminate. Qed.

Lemma ends_bind {A B} (m : py R A) (k : A -> py R B) :
  (forall a, ends (k a)) -> ends (m ≫= k).
Proof.
  intros Hk f b. rewrite bind_run.
  destruct (m f) as [[a|r|e] f']; try discriminate. apply Hk.
Qed.

Lemma ends_try_except {A} (body : py R A) (handler : exn -> py R A) :
  ends body -> (forall e, ends (handler e)) -> ends (try_except body handler).
Proof.
  intros Hb Hh f a. unfold try_except. specialize (Hb f).
  destruct (body f) as [[a'|r|e] f']; simpl in *; try discriminate.
  - exfalso. eapply Hb. reflexivity.
  - apply Hh.
Qed.

Lemma ends_try_finally {A} (body : py R A) (fin : py R unit) :
  ends body -> ends (try_finally body fin).
Proof.
  intros Hb f a. unfold try_finally. specialize (Hb f).
  destruct (body f) as [c f']. destruct (fin f') as [[[]|r|e] f''];
    simpl in *; try discriminate. apply Hb.
Qed.

End Ends.

Lemma ends_error_exit {A} d msg : ends (error_exit (A := A) d msg).
Proof. intros f a. rewrite error_exit_run. discriminate. Qed.

Lemma ends_return_error {A} d msg : ends (return_error (A := A) d msg).
Proof. intros f a. discriminate. Qed.

Lemma ends_interpret_response E d response : ends (interpret_response E d response).
Proof.
  unfold interpret_response.
  destruct (candidates response) as [[|candidate ?]|];
    try apply ends_error_exit.
  do 3 (apply ends_bind; intros ?). apply ends_error_exit.
Qed.

Lemma ends_generate E d ann snd box : ends (generate E d ann snd box).
Proof.
  unfold generate.
  destruct (GOOGLE_API_KEY E) as [[|c k]|];
    try (apply ends_bind; intros ?; apply ends_return_error).
  do 7 (apply ends_bind; intros ?).
  apply ends_try_finally, ends_try_except; [|intros e; apply ends_error_exit].
  unfold call_and_interpret. do 3 (apply ends_bind; intros ?).
  apply ends_interpret_response.
Qed.

Lemma ends_process_body E d a s : ends (process_body E d a s).
Proof.
  unfold process_body.
  destruct a as [ann|]; [|apply ends_error_exit].
  destruct s as [snd|]; [|apply ends_error_exit].
  destruct (empty_array snd); [apply ends_error_exit|].
  destruct (boxes ann) as [[|box rest]|]; try apply ends_error_exit.
  do 2 (apply ends_bind; intros ?). apply ends_generate.
Qed.

(** X1: [process_images] lets an exception out exactly when the test of
    line 36 raises, and then it has touched nothing; in every other case it
    returns a pair of a value and a status: no path falls off the end of the
    function and nothing raised after line 36 reaches the caller. *)
Theorem process_images_returns_a_pair E a s d w :
  match both_falsy E a s with
  | Err e => process_images E a s d w = (Raise e, w)
  | Ok _ => exists v status w', process_images E a s d w = (Return (v, status), w')
  end.
Proof.
  rewrite process_images_dispatch.
  destruct (both_falsy E a s) as [[]|e]; [eauto | | reflexivity].
  unfold run. rewrite bind_run, debug_append_run.
  pose proof (ends_try_except _ _ (ends_process_body E d a s)
                (fun e => ends_error_exit d ("Unexpected error: " +:+ exn_str e))
                (logged {| world := w; debug_info := [] |}
                   "🚀 Function execution started")) as Hends.
  destruct (guarded_run E d a s (logged {| world := w; debug_info := [] |}
                                   "🚀 Function execution started"))
    as (c & f' & Heq & Hc).
  rewrite <- Heq in *. destruct c as [[]|[v st]|e].
  - exfalso. eapply Hends. reflexivity.
  - eauto.
  - exfalso. eapply Hc. reflexivity.
Qed.

(** * Failures before the call *)

(** X2: only the first box of the annotation is used: replacing the boxes
    after it changes nothing of what the invocation returns or does. *)
Theorem only_first_box_used E img box rest rest' s d w :
  process_images E (Some {| image := img; boxes := Some (box :: rest) |}) s d w
  = process_images E (Some {| image := img; boxes := Some (box :: rest') |}) s d w.
Proof.
  rewrite !process_images_dispatch. unfold both_falsy, truthy_annotation.
  cbn [image boxes]. destruct img; reflexivity.
Qed.

(** X3: with an annotation that is not an empty dict, a second image that
    is [None] or an array without elements is answered with the status of
    the missing second image, before the boxes are looked at, and the world
    is left as it was. *)
Theorem missing_second_image_reported E ann s d w :
  truthy_annotation (Some ann) = true ->
  s = None \/ (exists a, s = Some (NdArray a) /\ flat a = []) ->
  exists trace,
    process_images E (Some ann) s d w =
    (Return (PyNone, status_with_debug d missing_second_msg trace), w).
Proof.
  intros Ht Hs.
  assert (Hbody : forall f,
            process_body E d (Some ann) s f =
            (Return (PyNone,
                     status_with_debug d missing_second_msg
                       (debug_info f ++ ["❌ " +:+ missing_second_msg])),
             logged f ("❌ " +:+ missing_second_msg))).
  { intros f. unfold process_body. destruct Hs as [->|(a & -> & Ha)].
    - apply error_exit_run.
    - unfold empty_array, arr_size. rewrite Ha. apply error_exit_run. }
  eexists.
  rewrite (run_guarded_return E d _ _ w _ _ (Hbody _) (both_falsy_truthy E _ _ Ht)).
  reflexivity.
Qed.

Lemma missing_second_image_reported_witness :
  truthy_annotation (Some (sample_annotation [])) = true /\
  exists trace,
    process_images (sample_env None (Ok (response_of [])))
      (Some (sample_annotation []))
      (Some (NdArray {| shape := [0%nat]; flat := [] |})) true empty_world =
    (Return (PyNone, status_with_debug true missing_second_msg trace), empty_world).
Proof.
  split; [reflexivity|].
  apply (missing_second_image_reported (sample_env None (Ok (response_of [])))
           (sample_annotation []) (Some (NdArray {| shape := [0%nat]; flat := [] |}))
           true empty_world).
  - reflexivity.
  - right. eexists. split; reflexivity.
Defined.

(** The steps of [generate] up to the construction of the client. *)
Lemma generate_with_key E d ann snd box f key :
  GOOGLE_API_KEY E = Some key -> key <> "" ->
  generate E d ann snd box f =
  match genai_Client E key with
  | Some client_error =>
      error_exit d ("Failed to initialize Gemini client: " +:+ exn_str client_error)
        (logged f "✅ Google API key found")
  | None =>
      (first_img_pil ←
         match image ann with
         | Some first_img => to_pil E first_img
         | None => raise (KeyError "image")
         end;
       first_img_path ← save_to_temp E "First" first_img_pil;
       second_img_pil ← to_pil E snd;
       second_img_path ← save_to_temp E "Second" second_img_pil;
       debug_append "📝 Enhanced prompt created";;
       try_finally
         (try_except
            (call_and_interpret E d (enhanced_prompt box) first_img_pil second_img_pil)
            (fun api_error =>
               error_exit d ("Gemini API error: " +:+ exn_str api_error)))
         (cleanup E first_img_path second_img_path))
        (logged (logged f "✅ Google API key found") "✅ Gemini client initialized")
  end.
Proof.
  intros Hkey Hne. unfold generate. rewrite Hkey.
  destruct key as [|c key]; [congruence|].
  py_run. rewrite bind_run. unfold try_except at 1.
  destruct (genai_Client E (String c key)) as [e|]; py_run.
  - reflexivity.
  - rewrite debug_append_run. reflexivity.
Qed.

(** X4: when [genai.Client] raises, the invocation returns the status
    "Failed to initialize Gemini client: ..." with the message of the
    exception; no temporary file has been created and no call issued. *)
Theorem client_failure_reported E d ann snd box rest w key e :
  boxes ann = Some (box :: rest) -> empty_array snd = false ->
  GOOGLE_API_KEY E = Some key -> key <> "" -> genai_Client E key = Some e ->
  exists trace,
    process_images E (Some ann) (Some snd) d w =
    (Return (PyNone,
             status_with_debug d
               ("Failed to initialize Gemini client: " +:+ exn_str e) trace),
     w).
Proof.
  intros Hb He Hkey Hne Hclient.
  destruct (process_images_generates E d ann snd box rest w Hb He)
    as (f0 & Hw & Hproc).
  pose proof (generate_with_key E d ann snd box f0 key Hkey Hne) as Hgen.
  rewrite Hclient, error_exit_run in Hgen.
  eexists. rewrite (Hproc _ _ Hgen). cbn [world logged]. rewrite Hw. reflexivity.
Qed.

Lemma client_failure_reported_witness :
  exists trace,
    process_images refusing_env
      (Some (sample_annotation [sample_box])) (Some (NdArray sample_array))
      false empty_world =
    (Return (PyNone,
             status_with_debug false
               ("Failed to initialize Gemini client: " +:+ "invalid API key") trace),
     empty_world).
Proof.
  apply (client_failure_reported refusing_env false (sample_annotation [sample_box])
           (NdArray sample_array) sample_box [] empty_world "expired"
           (Exception "ValueError" "invalid API key"));
    try reflexivity. discriminate.
Defined.

(** X5: an annotation dict without the "image" key passes validation when
    it has a box; the [KeyError] of line 120 is caught by the outer handler
    and comes back as the status "Unexpected error: 'image'", with no
    temporary file created and no call issued. *)
Theorem missing_image_key_reported E d ann snd box rest w key :
  boxes ann = Some (box :: rest) -> empty_array snd = false ->
  GOOGLE_API_KEY E = Some key -> key <> "" -> genai_Client E key = None ->
  image ann = None ->
  exists trace,
    process_images E (Some ann) (Some snd) d w =
    (Return (PyNone, status_with_debug d "Unexpected error: 'image'" trace), w).
Proof.
  intros Hb He Hkey Hne Hclient Himg.
  destruct (process_body_boxes E d ann snd box rest
              (logged {| world := w; debug_info := [] |}
                 "🚀 Function execution started") Hb He) as (f0 & Hw & Heq).
  assert (Hgen : generate E d ann snd box f0 =
                 (Raise (KeyError "image"),
                  logged (logged f0 "✅ Google API key found")
                    "✅ Gemini client initialized")).
  { rewrite (generate_with_key E d ann snd box f0 key Hkey Hne), Hclient, Himg.
    reflexivity. }
  rewrite <- Heq in Hgen.
  destruct (run_guarded_raise E d _ _ w _ _ Hgen
              (both_falsy_truthy E _ _ (truthy_with_boxes ann _ Hb))) as [trace Hrun].
  exists trace. rewrite Hrun. cbn [world logged]. rewrite Hw. reflexivity.
Qed.

Lemma missing_image_key_reported_witness :
  exists trace,
    process_images (sample_env (Some "key") (Ok (response_of [])))
      (Some {| image := None; boxes := Some [sample_box] |})
      (Some (NdArray sample_array)) false empty_world =
    (Return (PyNone, status_with_debug false "Unexpected error: 'image'" trace),
     empty_world).
Proof.
  apply (missing_image_key_reported (sample_env (Some "key") (Ok (response_of [])))
           false {| image := None; boxes := Some [sample_box] |}
           (NdArray sample_array) sample_box [] empty_world "key");
    try reflexivity. discriminate.
Defined.

(** * The call and what follows it *)

#[local] Instance same_calls_preorder : PreOrder same_calls.
Proof.
  split.
  - intros w. reflexivity.
  - intros w1 w2 w3 H1 H2. unfold same_calls in *. congruence.
Qed.

#[local] Instance same_tmp_preorder : PreOrder same_tmp.
Proof.
  split.
  - intros w. reflexivity.
  - intros w1 w2 w3 H1 H2. unfold same_tmp in *. congruence.
Qed.

#[local] Instance store_kept_preorder : PreOrder store_kept.
Proof.
  split.
  - intros w H. exact H.
  - intros w1 w2 w3 H1 H2 H. apply H2, H1, H.
Qed.

Section CallStage.

Variable E : Env.
Variable d : bool.

(** Saving an image to a new temporary file, when the encoder succeeds and
    when it raises. *)
Lemma save_to_temp_run label im enc f :
  png_encode E None im = Ok enc ->
  save_to_temp E label im f =
  (Normal (fresh (dom (tmp_files (world f)))),
   {| world :=
        {| tmp_files := <[fresh (dom (tmp_files (world f))) := enc]> (tmp_files (world f));
           result_store := result_store (world f);
           api_calls := api_calls (world f) |};
      debug_info :=
        debug_info f ++
        ["💾 " +:+ label +:+ " image saved: "
         +:+ tmp_name (fresh (dom (tmp_files (world f))))] |}).
Proof.
  intros Henc. unfold save_to_temp. rewrite bind_run. cbn [create_temp].
  rewrite Henc. py_run. unfold write_temp. py_run.
  cbn [world tmp_files result_store api_calls debug_info logged].
  rewrite insert_insert_eq. reflexivity.
Qed.

Lemma save_to_temp_raise label im e f :
  png_encode E None im = Err e ->
  save_to_temp E label im f =
  (Raise e,
   {| world :=
        {| tmp_files := <[fresh (dom (tmp_files (world f))) := []]> (tmp_files (world f));
           result_store := result_store (world f);
           api_calls := api_calls (world f) |};
      debug_info := debug_info f |}).
Proof.
  intros Henc. unfold save_to_temp. rewrite bind_run. cbn [create_temp].
  rewrite Henc. py_run. reflexivity.
Qed.

(** The call is logged before the service answers. *)
Lemma call_and_interpret_run p im1 im2 f :
  call_and_interpret E d p im1 im2 f =
  (response ← lift (generate_content E
                      {| req_model := "gemini-2.5-flash-image-preview";
                         req_prompt := p; req_image1 := im1; req_image2 := im2 |});
   debug_append "✅ Received response from Gemini";;
   debug_append ("🔍 Response candidates count: "
                 +:+ pretty (length (default [] (candidates response))));;
   interpret_response E d response)
    {| world := called (world f)
                  {| req_model := "gemini-2.5-flash-image-preview";
                     req_prompt := p; req_image1 := im1; req_image2 := im2 |};
       debug_info := debug_info f |}.
Proof.
  unfold call_and_interpret, call_generate_content. py_run. reflexivity.
Qed.

(** After the call is logged, nothing of the inner [try] touches the log
    of calls or the temporary directory. *)
Lemma after_call_steps Q `{!PreOrder Q} (reply : result Response) :
  (forall w b, Q w {| tmp_files := tmp_files w; result_store := Some b;
                      api_calls := api_calls w |}) ->
  world_steps Q
    (try_except
       (response ← lift reply;
        debug_append "✅ Received response from Gemini";;
        debug_append ("🔍 Response candidates count: "
                      +:+ pretty (length (default [] (candidates response))));;
        interpret_response E d response)
       (fun api_error => error_exit d ("Gemini API error: " +:+ exn_str api_error))).
Proof.
  intros HQ. apply steps_try_except; [exact _| |].
  - apply steps_bind; [exact _|apply steps_lift; exact _|]. intros response.
    do 2 (apply steps_bind; [exact _|apply steps_debug_append; exact _|intros ?]).
    apply steps_interpret_response; [exact _|exact HQ].
  - intros e. apply steps_error_exit. exact _.
Qed.

Lemma call_stage_run box im1 im2 n1 n2 f :
  call_stage E d box im1 im2 n1 n2 f =
  try_finally
    (try_except
       (response ← lift (generate_content E (the_request box im1 im2));
        debug_append "✅ Received response from Gemini";;
        debug_append ("🔍 Response candidates count: "
                      +:+ pretty (length (default [] (candidates response))));;
        interpret_response E d response)
       (fun api_error => error_exit d ("Gemini API error: " +:+ exn_str api_error)))
    (cleanup E n1 n2)
    {| world := called (world f) (the_request box im1 im2);
       debug_info := debug_info f |}.
Proof.
  unfold call_stage, try_finally, try_except. rewrite call_and_interpret_run.
  reflexivity.
Qed.

(** The call stage sends exactly one request. *)
Lemma call_stage_calls box im1 im2 n1 n2 f :
  api_calls (world (call_stage E d box im1 im2 n1 n2 f).2)
  = api_calls (world f) ++ [the_request box im1 im2].
Proof.
  rewrite call_stage_run.
  match goal with
  | |- api_calls (world (try_finally ?b ?c ?f0).2) = _ =>
      assert (H : world_steps same_calls (try_finally b c))
  end.
  { apply steps_try_finally; [exact _| |].
    - apply after_call_steps; [exact _|]. intros w b. reflexivity.
    - apply steps_cleanup; [exact _|]. intros w t. reflexivity. }
  rewrite (H _). reflexivity.
Qed.

(** The call stage always ends in a [return]. *)
Lemma call_stage_returns box im1 im2 n1 n2 f :
  exists r f', call_stage E d box im1 im2 n1 n2 f = (Return r, f').
Proof.
  assert (Hends : ends (try_except
                          (call_and_interpret E d (enhanced_prompt box) im1 im2)
                          (fun api_error =>
                             error_exit d ("Gemini API error: " +:+ exn_str api_error)))).
  { apply ends_try_except; [|intros e; apply ends_error_exit].
    unfold call_and_interpret. do 3 (apply ends_bind; intros ?).
    apply ends_interpret_response. }
  unfold call_stage, try_finally.
  specialize (Hends f). unfold try_except in *.
  destruct (call_and_interpret E d (enhanced_prompt box) im1 im2 f)
    as [[[]|r|e] f1]; cbn [fst] in Hends.
  - exfalso. eapply Hends. reflexivity.
  - destruct (cleanup_normal E n1 n2 f1) as (f2 & Hc & _). rewrite Hc. eauto.
  - rewrite error_exit_run.
    destruct (cleanup_normal E n1 n2
                (logged f1 ("❌ " +:+ "Gemini API error: " +:+ exn_str e)))
      as (f2 & Hc & _).
    rewrite Hc. eauto.
Qed.

(** The [finally] block when both files exist and [os.unlink] succeeds. *)
Lemma cleanup_run n1 n2 f :
  is_Some (tmp_files (world f) !! n1) ->
  is_Some (tmp_files (world f) !! n2) -> n1 <> n2 ->
  unlink_error E n1 = None -> unlink_error E n2 = None ->
  tmp_files (world (cleanup E n1 n2 f).2)
  = delete n2 (delete n1 (tmp_files (world f))).
Proof.
  intros [b1 H1] [b2 H2] Hne Hu1 Hu2.
  unfold cleanup, try_except. rewrite bind_run. unfold os_unlink at 1.
  rewrite H1, Hu1. cbn [modify_world]. rewrite bind_run. unfold os_unlink.
  cbn [world tmp_files]. rewrite lookup_delete_ne, H2, Hu2 by exact Hne.
  cbn [modify_world]. rewrite debug_append_run. reflexivity.
Qed.

(** The call stage leaves the temporary directory without the two files,
    when [os.unlink] succeeds on both. *)
Lemma call_stage_tmp box im1 im2 n1 n2 f :
  is_Some (tmp_files (world f) !! n1) ->
  is_Some (tmp_files (world f) !! n2) -> n1 <> n2 ->
  unlink_error E n1 = None -> unlink_error E n2 = None ->
  tmp_files (world (call_stage E d box im1 im2 n1 n2 f).2)
  = delete n2 (delete n1 (tmp_files (world f))).
Proof.
  intros H1 H2 Hne Hu1 Hu2. rewrite call_stage_run. unfold try_finally.
  match goal with
  | |- context [let (c, f') := ?body ?f0 in _] =>
      pose proof (after_call_steps same_tmp
                    (generate_content E (the_request box im1 im2))
                    (fun w0 b0 => eq_refl) f0) as Hbody;
      destruct (body f0) as [c f1]
  end.
  cbn [fst snd world called tmp_files] in Hbody. unfold same_tmp in Hbody.
  pose proof (cleanup_run n1 n2 f1) as Hclean. rewrite Hbody in Hclean.
  specialize (Hclean H1 H2 Hne Hu1 Hu2).
  destruct (cleanup_normal E n1 n2 f1) as (f2 & Hc & _).
  rewrite Hc in *. exact Hclean.
Qed.

(** The [finally] block when [os.unlink] fails on the first file: the
    second [os.unlink] is not reached. *)
Lemma cleanup_stops n1 n2 f e :
  is_Some (tmp_files (world f) !! n1) -> unlink_error E n1 = Some e ->
  cleanup E n1 n2 f = (Normal tt, f).
Proof.
  intros [b1 H1] Hu1. unfold cleanup, try_except. rewrite bind_run.
  unfold os_unlink at 1. rewrite H1, Hu1. reflexivity.
Qed.

Lemma call_stage_tmp_stuck box im1 im2 n1 n2 f e :
  is_Some (tmp_files (world f) !! n1) -> unlink_error E n1 = Some e ->
  tmp_files (world (call_stage E d box im1 im2 n1 n2 f).2) = tmp_files (world f).
Proof.
  intros H1 Hu1. rewrite call_stage_run. unfold try_finally.
  match goal with
  | |- context [let (c, f') := ?body ?f0 in _] =>
      pose proof (after_call_steps same_tmp
                    (generate_content E (the_request box im1 im2))
                    (fun w0 b0 => eq_refl) f0) as Hbody;
      destruct (body f0) as [c f1]
  end.
  cbn [fst snd world called tmp_files] in Hbody. unfold same_tmp in Hbody.
  rewrite (cleanup_stops n1 n2 f1 e) by (rewrite ?Hbody; assumption).
  exact Hbody.
Qed.

(** With the key set, the client built and both images converted and
    encoded, [generate] is the call stage, run with the two encodings in two
    new temporary files. *)
Lemma generate_reaches_call ann snd box f im1 im2 :
  call_reached E ann snd im1 im2 ->
  exists enc1 enc2 n1 n2 f0,
    generate E d ann snd box f = call_stage E d box im1 im2 n1 n2 f0 /\
    tmp_files (world f) !! n1 = None /\ tmp_files (world f) !! n2 = None /\
    n1 <> n2 /\
    world f0 = {| tmp_files := <[n2 := enc2]> (<[n1 := enc1]> (tmp_files (world f)));
                  result_store := result_store (world f);
                  api_calls := api_calls (world f) |} /\
    n1 = fresh (dom (tmp_files (world f))) /\
    png_encode E None im1 = Ok enc1 /\ png_encode E None im2 = Ok enc2.
Proof.
  intros (key & first_img & enc1 & enc2 &
          Hkey & Hne & Hclient & Himg & Hpil1 & Henc1 & Hpil2 & Henc2).
  rewrite (generate_with_key E d ann snd box f key Hkey Hne), Hclient, Himg.
  set (fa := logged (logged f "✅ Google API key found") "✅ Gemini client initialized").
  rewrite !to_pil_lift, Hpil1, Hpil2. py_run. rewrite bind_run.
  rewrite (save_to_temp_run "First" im1 enc1 fa Henc1). py_run. rewrite bind_run.
  erewrite (save_to_temp_run "Second" im2 enc2 _ Henc2).
  py_run. cbn [world tmp_files result_store api_calls debug_info logged fa].
  set (n1 := fresh (dom (tmp_files (world f)))).
  set (n2 := fresh (dom (<[n1 := enc1]> (tmp_files (world f))))).
  assert (Hn1 : tmp_files (world f) !! n1 = None).
  { apply not_elem_of_dom, is_fresh. }
  assert (Hn2 : n2 ∉ dom (<[n1 := enc1]> (tmp_files (world f)))) by apply is_fresh.
  rewrite dom_insert_L in Hn2.
  exists enc1, enc2, n1, n2. eexists.
  split; [reflexivity|].
  split; [exact Hn1|]. split; [apply not_elem_of_dom; set_solver|].
  split; [set_solver|]. split; [reflexivity|]. split; [reflexivity|].
  split; assumption.
Qed.

(** Otherwise an exception of the preparation leaves [generate] before any
    call, with the result store as it was. *)
Lemma generate_prepares ann snd box f key :
  GOOGLE_API_KEY E = Some key -> key <> "" -> genai_Client E key = None ->
  (exists im1 im2, call_reached E ann snd im1 im2) \/
  (exists e f', generate E d ann snd box f = (Raise e, f') /\
                same_calls (world f) (world f') /\ same_store (world f) (world f')).
Proof.
  intros Hkey Hne Hclient.
  destruct (image ann) as [first_img|] eqn:Himg.
  2:{ right. rewrite (generate_with_key E d ann snd box f key Hkey Hne), Hclient, Himg.
      eexists _, _; split; [reflexivity|split; reflexivity]. }
  destruct (pil_of E first_img) as [im1|e] eqn:Hpil1.
  2:{ right. rewrite (generate_with_key E d ann snd box f key Hkey Hne), Hclient, Himg.
      rewrite !to_pil_lift, Hpil1. py_run.
      eexists _, _; split; [reflexivity|split; reflexivity]. }
  destruct (png_encode E None im1) as [enc1|e] eqn:Henc1.
  2:{ right. rewrite (generate_with_key E d ann snd box f key Hkey Hne), Hclient, Himg.
      rewrite !to_pil_lift, Hpil1. py_run. rewrite bind_run.
      erewrite (save_to_temp_raise "First" im1 e _ Henc1).
      eexists _, _; split; [reflexivity|split; reflexivity]. }
  destruct (pil_of E snd) as [im2|e] eqn:Hpil2.
  2:{ right. rewrite (generate_with_key E d ann snd box f key Hkey Hne), Hclient, Himg.
      rewrite !to_pil_lift, Hpil1, Hpil2. py_run. rewrite bind_run.
      erewrite (save_to_temp_run "First" im1 enc1 _ Henc1). py_run.
      eexists _, _; split; [reflexivity|split; reflexivity]. }
  destruct (png_encode E None im2) as [enc2|e] eqn:Henc2.
  2:{ right. rewrite (generate_with_key E d ann snd box f key Hkey Hne), Hclient, Himg.
      rewrite !to_pil_lift, Hpil1, Hpil2. py_run. rewrite bind_run.
      erewrite (save_to_temp_run "First" im1 enc1 _ Henc1). py_run. rewrite bind_run.
      erewrite (save_to_temp_raise "Second" im2 e _ Henc2).
      eexists _, _; split; [reflexivity|split; reflexivity]. }
  left. exists im1, im2, key, first_img, enc1, enc2. auto 10.
Qed.

End CallStage.

(** * From [generate] to the invocation *)

(** With inputs that pass validation, the invocation ends as [generate]
    ends: what it returns is returned, what it raises comes back as the
    "Unexpected error" status, and the world is the one it leaves. *)
Lemma process_images_of_generate E d ann snd box rest w :
  boxes ann = Some (box :: rest) -> empty_array snd = false ->
  exists f0, world f0 = w /\
    (process_images E (Some ann) (Some snd) d w).2
    = world (generate E d ann snd box f0).2 /\
    (forall r f', generate E d ann snd box f0 = (Return r, f') ->
       process_images E (Some ann) (Some snd) d w = (Return r, world f')) /\
    (forall e f', generate E d ann snd box f0 = (Raise e, f') ->
       exists trace,
         process_images E (Some ann) (Some snd) d w =
         (Return (PyNone,
                  status_with_debug d ("Unexpected error: " +:+ exn_str e) trace),
          world f')).
Proof.
  intros Hb He.
  destruct (process_body_boxes E d ann snd box rest
              (logged {| world := w; debug_info := [] |}
                 "🚀 Function execution started") Hb He) as (f0 & Hw & Heq).
  pose proof (both_falsy_truthy E _ (Some snd) (truthy_with_boxes ann _ Hb)) as Hgate.
  exists f0. split; [exact Hw|]. split; [|split].
  - rewrite process_images_dispatch, Hgate. unfold run.
    rewrite bind_run, debug_append_run. unfold try_except. rewrite Heq.
    destruct (generate E d ann snd box f0) as [[[]|r|e] f']; reflexivity.
  - intros r f' Hgen. apply run_guarded_return; [|exact Hgate].
    rewrite Heq. exact Hgen.
  - intros e f' Hgen. apply run_guarded_raise; [|exact Hgate].
    rewrite Heq. exact Hgen.
Qed.

Lemma calls_since_same w w' : same_calls w w' -> calls_since w w' = [].
Proof. unfold same_calls, calls_since. intros ->. apply drop_all. Qed.

Lemma calls_since_one w w' req :
  api_calls w' = api_calls w ++ [req] -> calls_since w w' = [req].
Proof. unfold calls_since. intros ->. apply drop_app_length. Qed.

(** An invocation whose inputs pass validation and that reaches the call
    sends the one request and nothing else. *)
Lemma process_images_calls E d ann snd box rest w im1 im2 :
  boxes ann = Some (box :: rest) -> empty_array snd = false ->
  call_reached E ann snd im1 im2 ->
  calls_since w (process_images E (Some ann) (Some snd) d w).2
  = [the_request box im1 im2].
Proof.
  intros Hb He Hreach.
  destruct (process_images_of_generate E d ann snd box rest w Hb He)
    as (f0 & Hw & Hworld & _).
  destruct (generate_reaches_call E d ann snd box f0 im1 im2 Hreach)
    as (enc1 & enc2 & n1 & n2 & f1 & Hgen & _ & _ & _ & Hw1 & _ & _ & _).
  apply calls_since_one. rewrite Hworld, Hgen, call_stage_calls, Hw1, Hw.
  reflexivity.
Qed.

(** X6: an invocation sends at most one request to the service (there is
    no retry), and it sends one only when the inputs pass validation, the
    key is set, the client is built and both images are converted and
    encoded; the request names the model "gemini-2.5-flash-image-preview"
    and carries the prompt of the first box, then the first image, then the
    second. *)
Theorem at_most_one_call E a s d w :
  calls_since w (process_images E a s d w).2 = [] \/
  exists ann snd box rest im1 im2,
    a = Some ann /\ s = Some snd /\ boxes ann = Some (box :: rest) /\
    empty_array snd = false /\ call_reached E ann snd im1 im2 /\
    calls_since w (process_images E a s d w).2 =
    [ {| req_model := "gemini-2.5-flash-image-preview";
         req_prompt := enhanced_prompt box;
         req_image1 := im1;
         req_image2 := im2 |} ].
Proof.
  assert (Hsame : (process_images E a s d w).2 = w ->
                  calls_since w (process_images E a s d w).2 = []).
  { intros ->. apply calls_since_same. reflexivity. }
  assert (Hinvalid :
            (forall ann snd box rest, a = Some ann -> s = Some snd ->
               boxes ann = Some (box :: rest) -> empty_array snd = false -> False) ->
            (process_images E a s d w).2 = w).
  { intros Hinv. apply process_images_body_world. intros f.
    destruct (process_body_invalid E d a s f Hinv) as [msg Hmsg].
    eexists _, _. split; [exact Hmsg|reflexivity]. }
  destruct a as [ann|]; [|left; apply Hsame, Hinvalid; discriminate].
  destruct s as [snd|]; [|left; apply Hsame, Hinvalid; discriminate].
  destruct (empty_array snd) eqn:He;
    [left; apply Hsame, Hinvalid; intros ? ? ? ? [= <-] [= <-]; congruence|].
  destruct (boxes ann) as [[|box rest]|] eqn:Hb;
    try (left; apply Hsame, Hinvalid; intros ? ? ? ? [= <-] [= <-]; congruence).
  destruct (process_images_of_generate E d ann snd box rest w Hb He)
    as (f0 & Hw & Hworld & _).
  destruct (GOOGLE_API_KEY E) as [key|] eqn:Hkey.
  2:{ left. apply calls_since_same. rewrite Hworld.
      rewrite generate_no_key by (left; exact Hkey). cbn [Datatypes.snd world logged].
      rewrite Hw. reflexivity. }
  destruct (String.eqb key "") eqn:Hempty.
  { apply String.eqb_eq in Hempty. subst key.
    left. apply calls_since_same. rewrite Hworld.
    rewrite generate_no_key by (right; exact Hkey). cbn [Datatypes.snd world logged].
    rewrite Hw. reflexivity. }
  apply String.eqb_neq in Hempty.
  destruct (genai_Client E key) as [e|] eqn:Hclient.
  { left. apply calls_since_same. rewrite Hworld.
    rewrite (generate_with_key E d ann snd box f0 key Hkey Hempty), Hclient.
    rewrite error_exit_run. cbn [Datatypes.snd world logged]. rewrite Hw. reflexivity. }
  destruct (generate_prepares E d ann snd box f0 key Hkey Hempty Hclient)
    as [(im1 & im2 & Hreach)|(e & f' & Hgen & Hcalls & _)].
  - right. exists ann, snd, box, rest, im1, im2.
    repeat (split; [reflexivity || assumption|]).
    apply (process_images_calls E d ann snd box rest w im1 im2 Hb He Hreach).
  - left. apply calls_since_same. rewrite Hworld, Hgen. cbn [Datatypes.snd].
    rewrite <- Hw. exact Hcalls.
Qed.

(** X7: when both images are encoded and [os.unlink] does not fail, the
    temporary directory is the same after the invocation as before it,
    whatever the service answers or raises and whatever becomes of the
    response. *)
Theorem temp_files_released E d ann snd box rest w im1 im2 :
  boxes ann = Some (box :: rest) -> empty_array snd = false ->
  call_reached E ann snd im1 im2 ->
  (forall n, unlink_error E n = None) ->
  tmp_files (process_images E (Some ann) (Some snd) d w).2 = tmp_files w.
Proof.
  intros Hb He Hreach Hunlink.
  destruct (process_images_of_generate E d ann snd box rest w Hb He)
    as (f0 & Hw & Hworld & _).
  destruct (generate_reaches_call E d ann snd box f0 im1 im2 Hreach)
    as (enc1 & enc2 & n1 & n2 & f1 & Hgen & Hn1 & Hn2 & Hne & Hw1 & _ & _ & _).
  rewrite Hworld, Hgen.
  rewrite call_stage_tmp; try apply Hunlink; try exact Hne.
  - rewrite Hw1. cbn [tmp_files].
    rewrite (delete_insert_ne _ n1 n2) by exact Hne.
    rewrite (delete_insert_id _ n1) by exact Hn1.
    rewrite (delete_insert_id _ n2) by exact Hn2.
    rewrite Hw. reflexivity.
  - rewrite Hw1. cbn [tmp_files].
    rewrite lookup_insert_ne, lookup_insert_eq by (intros ->; contradiction).
    eauto.
  - rewrite Hw1. cbn [tmp_files]. rewrite lookup_insert_eq. eauto.
Qed.

Lemma sample_call_reached key reply :
  key <> "" ->
  call_reached (sample_env (Some key) reply)
    (sample_annotation [sample_box]) (NdArray sample_array) sample_rgb sample_rgb.
Proof.
  intros Hne. exists key, (Pil sample_rgb), [Byte.x01], [Byte.x01].
  repeat split; try reflexivity. exact Hne.
Qed.

Lemma temp_files_released_witness :
  tmp_files
    (process_images
       (sample_env (Some "key") (Err (Exception "ServerError" "503 unavailable")))
       (Some (sample_annotation [sample_box])) (Some (NdArray sample_array))
       true empty_world).2
  = tmp_files empty_world.
Proof.
  apply (temp_files_released
           (sample_env (Some "key") (Err (Exception "ServerError" "503 unavailable")))
           true (sample_annotation [sample_box]) (NdArray sample_array)
           sample_box [] empty_world sample_rgb sample_rgb);
    try reflexivity.
  apply sample_call_reached. discriminate.
Defined.

(** * What the service answers *)

(** The invocation ends as the call stage ends; the clean-up keeps the
    result store. *)
Lemma process_images_of_call_stage E d ann snd box rest w im1 im2 :
  boxes ann = Some (box :: rest) -> empty_array snd = false ->
  call_reached E ann snd im1 im2 ->
  exists n1 n2 f1,
    result_store (world f1) = result_store w /\
    forall r f2, call_stage E d box im1 im2 n1 n2 f1 = (Return r, f2) ->
      process_images E (Some ann) (Some snd) d w = (Return r, world f2).
Proof.
  intros Hb He Hreach.
  destruct (process_images_of_generate E d ann snd box rest w Hb He)
    as (f0 & Hw & _ & Hret & _).
  destruct (generate_reaches_call E d ann snd box f0 im1 im2 Hreach)
    as (enc1 & enc2 & n1 & n2 & f1 & Hgen & _ & _ & _ & Hw1 & _ & _ & _).
  exists n1, n2, f1. split.
  - rewrite Hw1, Hw. reflexivity.
  - intros r f2 Hstage. apply Hret. rewrite Hgen. exact Hstage.
Qed.

(** X8: when the call to the service raises, the invocation returns no
    image and the status "Gemini API error: ..." with the message of the
    exception; the request has been sent once and generated_composite.png is
    as it was. *)
Theorem service_error_reported E d ann snd box rest w im1 im2 e :
  boxes ann = Some (box :: rest) -> empty_array snd = false ->
  call_reached E ann snd im1 im2 ->
  generate_content E (the_request box im1 im2) = Err e ->
  exists trace w',
    process_images E (Some ann) (Some snd) d w =
    (Return (PyNone, status_with_debug d ("Gemini API error: " +:+ exn_str e) trace),
     w') /\
    result_store w' = result_store w /\
    calls_since w w' = [the_request box im1 im2].
Proof.
  intros Hb He Hreach Herr.
  pose proof (process_images_calls E d ann snd box rest w im1 im2 Hb He Hreach)
    as Hcalls.
  destruct (process_images_of_call_stage E d ann snd box rest w im1 im2 Hb He Hreach)
    as (n1 & n2 & f1 & Hst1 & Hret).
  destruct (cleanup_normal E n1 n2
              (logged {| world := called (world f1) (the_request box im1 im2);
                         debug_info := debug_info f1 |}
                 ("❌ " +:+ "Gemini API error: " +:+ exn_str e)))
    as (f2 & Hclean & Hst2).
  assert (Hstage : call_stage E d box im1 im2 n1 n2 f1 =
                   (Return (PyNone,
                            status_with_debug d ("Gemini API error: " +:+ exn_str e)
                              (debug_info f1 ++
                               ["❌ " +:+ "Gemini API error: " +:+ exn_str e])),
                    f2)).
  { rewrite call_stage_run, Herr. unfold try_finally, try_except.
    py_run. rewrite Hclean. reflexivity. }
  rewrite (Hret _ _ Hstage) in *.
  eexists _, _. split; [reflexivity|]. split; [|exact Hcalls].
  cbn [world logged called result_store] in Hst2. rewrite Hst2. exact Hst1.
Qed.

Lemma service_error_reported_witness :
  exists trace w',
    process_images
      (sample_env (Some "key") (Err (Exception "ServerError" "503 unavailable")))
      (Some (sample_annotation [sample_box])) (Some (NdArray sample_array))
      false empty_world =
    (Return (PyNone,
             status_with_debug false
               ("Gemini API error: " +:+ "503 unavailable") trace), w') /\
    result_store w' = result_store empty_world /\
    calls_since empty_world w' = [the_request sample_box sample_rgb sample_rgb].
Proof.
  apply (service_error_reported
           (sample_env (Some "key") (Err (Exception "ServerError" "503 unavailable")))
           false (sample_annotation [sample_box]) (NdArray sample_array)
           sample_box [] empty_world sample_rgb sample_rgb
           (Exception "ServerError" "503 unavailable"));
    try reflexivity.
  apply sample_call_reached. discriminate.
Defined.

(** X9: a response without candidates ([None] or an empty list) gives no
    image and the status "No response candidates received"; the result
    store is as it was. *)
Theorem empty_response_reported E d ann snd box rest w im1 im2 response :
  boxes ann = Some (box :: rest) -> empty_array snd = false ->
  call_reached E ann snd im1 im2 ->
  generate_content E (the_request box im1 im2) = Ok response ->
  candidates response = None \/ candidates response = Some [] ->
  exists trace w',
    process_images E (Some ann) (Some snd) d w =
    (Return (PyNone, status_with_debug d "No response candidates received" trace),
     w') /\
    result_store w' = result_store w.
Proof.
  intros Hb He Hreach Hok Hnone.
  destruct (process_images_of_call_stage E d ann snd box rest w im1 im2 Hb He Hreach)
    as (n1 & n2 & f1 & Hst1 & Hret).
  assert (Hint : forall f,
            interpret_response E d response f =
            (Return (PyNone,
                     status_with_debug d "No response candidates received"
                       (debug_info f ++ ["❌ " +:+ "No response candidates received"])),
             logged f ("❌ " +:+ "No response candidates received"))).
  { intros f. unfold interpret_response.
    destruct Hnone as [-> | ->]; apply error_exit_run. }
  match type of Hret with
  | context [call_stage _ _ _ _ _ ?a ?b ?f] =>
      assert (Hstage : exists tr f2,
                call_stage E d box im1 im2 a b f =
                (Return (PyNone,
                         status_with_debug d "No response candidates received" tr), f2)
                /\ result_store (world f2) = result_store (world f))
  end.
  { rewrite call_stage_run, Hok. unfold try_finally, try_except. py_run.
    rewrite Hint.
    match goal with
    | |- context [cleanup E n1 n2 ?f0] =>
        destruct (cleanup_normal E n1 n2 f0) as (f2 & Hclean & Hst2)
    end.
    rewrite Hclean. eexists _, f2. split; [reflexivity|]. exact Hst2. }
  destruct Hstage as (tr & f2 & Hstage & Hst2).
  rewrite (Hret _ _ Hstage).
  eexists _, _. split; [reflexivity|]. rewrite Hst2. exact Hst1.
Qed.

Lemma empty_response_reported_witness :
  exists trace w',
    process_images (sample_env (Some "key") (Ok {| candidates := Some [] |}))
      (Some (sample_annotation [sample_box])) (Some (NdArray sample_array))
      false empty_world =
    (Return (PyNone, status_with_debug false "No response candidates received" trace),
     w') /\
    result_store w' = result_store empty_world.
Proof.
  apply (empty_response_reported
           (sample_env (Some "key") (Ok {| candidates := Some [] |}))
           false (sample_annotation [sample_box]) (NdArray sample_array)
           sample_box [] empty_world sample_rgb sample_rgb {| candidates := Some [] |});
    try reflexivity.
  - apply sample_call_reached. discriminate.
  - right. reflexivity.
Defined.

(** * The result store *)

Lemma handle_inline_data_reopen_error E d blob b f image0 image1 encoded e :
  data blob = Some b -> Image_open E b = Ok image0 ->
  normalize_output E image0 = Ok image1 ->
  png_encode E (Some 1%nat) image1 = Ok encoded ->
  Image_open E encoded = Err e ->
  exists trace,
    handle_inline_data E d blob f =
    (Return (PyNone,
             status_with_debug d
               ("Failed to process generated image: " +:+ exn_str e) trace),
     {| world := stored (world f) encoded; debug_info := trace |}).
Proof.
  intros Hd Hopen Hnorm Henc Hsaved. eexists.
  rewrite (handle_inline_data_data E d blob b f Hd).
  unfold decode_inline_data, try_except.
  rewrite Hopen. py_run. rewrite Hnorm. py_run. rewrite Henc. py_run.
  unfold write_store. py_run. rewrite bind_run.
  unfold open_composite. cbn [world result_store logged]. rewrite Hsaved.
  cbn [lift mret py_ret raise]. py_run. reflexivity.
Qed.

(** X10: the composite is written before it is read back: when the decoded
    image is normalised and saved but re-opening the saved file raises, the
    invocation reports "Failed to process generated image: ..." and returns
    no image, yet generated_composite.png now holds the new image. *)
Theorem saved_file_outlives_reopen_failure
    E d ann snd box rest w response candidate others ps part blob image_data
    image0 image1 encoded e :
  boxes ann = Some (box :: rest) -> empty_array snd = false ->
  response_received E ann snd box response ->
  candidates response = Some (candidate :: others) ->
  content candidate = Some {| parts := Some ps |} ->
  List.find carries ps = Some part ->
  text part = None -> inline_data part = Some blob ->
  data blob = Some image_data ->
  Image_open E image_data = Ok image0 ->
  normalize_output E image0 = Ok image1 ->
  png_encode E (Some 1%nat) image1 = Ok encoded ->
  Image_open E encoded = Err e ->
  exists trace w',
    process_images E (Some ann) (Some snd) d w =
    (Return (PyNone,
             status_with_debug d
               ("Failed to process generated image: " +:+ exn_str e) trace),
     w') /\
    result_store w' = Some encoded.
Proof.
  intros Hb He Hrecv Hc Hcontent Hfind Htext Hdata Hbytes Hopen Hnorm Henc Hsaved.
  destruct (process_images_generates E d ann snd box rest w Hb He)
    as (f0 & Hw0 & Hproc).
  destruct (generate_interprets E d ann snd box response f0 Hrecv)
    as (f1 & _ & Hgen).
  assert (Hps : content_parts candidate = Ok ps).
  { unfold content_parts. rewrite Hcontent. reflexivity. }
  pose proof (interpret_response_first_part E d response candidate others ps f1
                Hc Hps) as Hint.
  rewrite Hfind, Htext in Hint.
  destruct Hint as (blob' & trace & Hblob & Hint & _).
  rewrite Hdata in Hblob. injection Hblob as <-.
  destruct (handle_inline_data_reopen_error E d blob image_data (traced f1 trace)
              image0 image1 encoded e Hbytes Hopen Hnorm Henc Hsaved) as [tr Hrun].
  rewrite Hrun in Hint.
  destruct (Hgen _ _ Hint) as (f3 & Hg & Hst3).
  eexists _, _. split; [apply Hproc; exact Hg|].
  rewrite Hst3. reflexivity.
Qed.

Lemma download_image_found E w b :
  result_store w = Some b ->
  download_image E w = (Return (PyPath (composite_path E)), w).
Proof.
  intros Hb. unfold download_image, run, try_except, composite_exists.
  rewrite bind_run. cbn [world]. rewrite Hb. reflexivity.
Qed.

(** X11: after an invocation that returned an image, [download_image]
    returns the path of generated_composite.png. *)
Theorem download_after_success E a s d w im status w' :
  process_images E a s d w = (Return (PyImg im, status), w') ->
  download_image E w' = (Return (PyPath (composite_path E)), w').
Proof.
  intros Hrun.
  destruct (returns_process_images E d a s w _ w' Hrun)
    as [Hnone|(im' & b & fmt & tr & _ & _ & Hst)].
  - discriminate.
  - exact (download_image_found E w' b Hst).
Qed.

Lemma download_after_success_witness :
  download_image (sample_env (Some "key") (Ok (response_of [data_part [Byte.x02]])))
    (process_images (sample_env (Some "key") (Ok (response_of [data_part [Byte.x02]])))
       (Some (sample_annotation [sample_box])) (Some (NdArray sample_array))
       false empty_world).2
  = (Return (PyPath "/srv/banana-app/generated_composite.png"),
     (process_images (sample_env (Some "key") (Ok (response_of [data_part [Byte.x02]])))
        (Some (sample_annotation [sample_box])) (Some (NdArray sample_array))
        false empty_world).2).
Proof.
  apply (download_after_success
           (sample_env (Some "key") (Ok (response_of [data_part [Byte.x02]])))
           (Some (sample_annotation [sample_box])) (Some (NdArray sample_array))
           false empty_world
           (paste_mask (Image_new "RGB" (2, 1)%nat white) sample_rgba
              (last_band sample_rgba))
           (success_status "PNG")).
  vm_compute. reflexivity.
Defined.

(** The prompt an invocation would send, if any. *)
Lemma prompt_of_inputs (a : option Annotation) :
  exists p, forall ann box rest,
    a = Some ann -> boxes ann = Some (box :: rest) -> enhanced_prompt box = p.
Proof.
  destruct a as [ann|]; [|exists ""; discriminate].
  destruct (boxes ann) as [[|box rest]|] eqn:Hb.
  - exists "". intros ann' box' rest' [= <-]. congruence.
  - exists (enhanced_prompt box). intros ann' box' rest' [= <-] Hb'.
    congruence.
  - exists "". intros ann' box' rest' [= <-]. congruence.
Qed.

(** X12: [process_images] never removes generated_composite.png: if
    [download_image] finds the file before an invocation, it finds it after
    the invocation too, however the invocation goes. *)
Theorem result_file_never_removed E a s d w :
  (download_image E w).1 = Return (PyPath (composite_path E)) ->
  (download_image E (process_images E a s d w).2).1
  = Return (PyPath (composite_path E)).
Proof.
  intros Hbefore.
  assert (Hsome : is_Some (result_store w)).
  { destruct (result_store w) as [b|] eqn:Hb; [eauto|].
    revert Hbefore. unfold download_image, run, try_except, composite_exists.
    rewrite bind_run. cbn [world]. rewrite Hb. discriminate. }
  destruct (prompt_of_inputs a) as [p Hp].
  pose proof (steps_process_images store_kept p
                (fun w0 t HS => HS) (fun w0 b _ => ltac:(eauto))
                (fun w0 req _ HS => HS) E d a s w Hp Hsome) as [b Hb].
  rewrite (download_image_found E _ b Hb). reflexivity.
Qed.

Lemma result_file_never_removed_witness :
  (download_image (sample_env None (Ok (response_of [])))
     (process_images (sample_env None (Ok (response_of [])))
        (Some (sample_annotation [sample_box])) None true
        (stored empty_world [Byte.x01])).2).1
  = Return (PyPath "/srv/banana-app/generated_composite.png").
Proof.
  apply (result_file_never_removed (sample_env None (Ok (response_of [])))
           (Some (sample_annotation [sample_box])) None true
           (stored empty_world [Byte.x01])).
  reflexivity.
Defined.

(** * The debug flag *)

Section DebugSim.

Lemma debug_extends_refl {A} (c : completion retval A) : debug_extends c c.
Proof. destruct c as [a|[v st]|e]; simpl; auto. Qed.

Lemma sim_refl {A} (m : py retval A) : debug_sim m m.
Proof. intros f. split; [apply debug_extends_refl | reflexivity]. Qed.

Lemma sim_bind {A B} (m1 m0 : py retval A) (k1 k0 : A -> py retval B) :
  debug_sim m1 m0 -> (forall a, debug_sim (k1 a) (k0 a)) ->
  debug_sim (m1 ≫= k1) (m0 ≫= k0).
Proof.
  intros Hm Hk f. rewrite !bind_run. destruct (Hm f) as [Hc Hf].
  destruct (m1 f) as [[a1|[v1 s1]|e1] f1], (m0 f) as [[a0|[v0 s0]|e0] f0];
    simpl in *; try contradiction; subst.
  - apply Hk.
  - split; [exact Hc|reflexivity].
  - split; reflexivity.
Qed.

Lemma sim_try_except {A} (b1 b0 : py retval A) (h1 h0 : exn -> py retval A) :
  debug_sim b1 b0 -> (forall e, debug_sim (h1 e) (h0 e)) ->
  debug_sim (try_except b1 h1) (try_except b0 h0).
Proof.
  intros Hb Hh f. unfold try_except. destruct (Hb f) as [Hc Hf].
  destruct (b1 f) as [[a1|[v1 s1]|e1] f1], (b0 f) as [[a0|[v0 s0]|e0] f0];
    simpl in *; try contradiction; subst.
  - split; reflexivity.
  - split; [exact Hc|reflexivity].
  - apply Hh.
Qed.

Lemma sim_try_finally {A} (b1 b0 : py retval A) (fin : py retval unit) :
  debug_sim b1 b0 -> debug_sim (try_finally b1 fin) (try_finally b0 fin).
Proof.
  intros Hb f. unfold try_finally. destruct (Hb f) as [Hc Hf].
  destruct (b1 f) as [c1 f1], (b0 f) as [c0 f0]. simpl in *. subst f1.
  destruct (fin f0) as [[[]|[v st]|e] f']; simpl.
  - split; [exact Hc|reflexivity].
  - split; [auto|reflexivity].
  - split; reflexivity.
Qed.

Lemma sim_return_error {A} msg :
  debug_sim (return_error (A := A) true msg) (return_error false msg).
Proof. intros f. split; [|reflexivity]. simpl. split; [reflexivity|]. right. eauto. Qed.

Lemma sim_error_exit {A} msg :
  debug_sim (error_exit (A := A) true msg) (error_exit false msg).
Proof.
  unfold error_exit. apply sim_bind; [apply sim_refl|].
  intros _. apply sim_return_error.
Qed.

Lemma sim_return_text {A} t :
  debug_sim (return_text (A := A) true t) (return_text false t).
Proof. intros f. split; [|reflexivity]. simpl. split; [reflexivity|]. right. eauto. Qed.

Lemma sim_return_success {A} im fmt :
  debug_sim (return_success (A := A) true im fmt) (return_success false im fmt).
Proof. intros f. split; [|reflexivity]. simpl. split; [reflexivity|]. right. eauto. Qed.

Variable E : Env.

Lemma sim_handle_inline_data blob :
  debug_sim (handle_inline_data E true blob) (handle_inline_data E false blob).
Proof.
  unfold handle_inline_data, decode_inline_data.
  apply sim_bind; [apply sim_refl|intros image_data].
  apply sim_try_except; [|intros e; apply sim_error_exit].
  do 10 (apply sim_bind; [apply sim_refl|intros ?]).
  apply sim_return_success.
Qed.

Lemma sim_scan_parts ps : forall i,
  debug_sim (scan_parts E true i ps) (scan_parts E false i ps).
Proof.
  induction ps as [|part rest IH]; intros i; cbn [scan_parts]; [apply sim_refl|].
  apply sim_bind; [apply sim_refl|intros _].
  apply sim_bind; [|intros _; apply IH].
  destruct (text part).
  - apply sim_bind; [apply sim_refl|intros _]. apply sim_return_text.
  - destruct (inline_data part); [apply sim_handle_inline_data|apply sim_refl].
Qed.

Lemma sim_interpret_response response :
  debug_sim (interpret_response E true response) (interpret_response E false response).
Proof.
  unfold interpret_response.
  destruct (candidates response) as [[|candidate ?]|]; try apply sim_error_exit.
  apply sim_bind; [apply sim_refl|intros ps].
  apply sim_bind; [apply sim_refl|intros _].
  apply sim_bind; [apply sim_scan_parts|intros _]. apply sim_error_exit.
Qed.

Lemma sim_generate ann snd box :
  debug_sim (generate E true ann snd box) (generate E false ann snd box).
Proof.
  unfold generate.
  destruct (GOOGLE_API_KEY E) as [[|c k]|];
    try (apply sim_bind; [apply sim_refl|intros _]; apply sim_return_error).
  apply sim_bind; [apply sim_refl|intros _].
  apply sim_bind.
  { apply sim_try_except; [apply sim_refl|intros e; apply sim_error_exit]. }
  intros _.
  do 5 (apply sim_bind; [apply sim_refl|intros ?]).
  apply sim_try_finally, sim_try_except; [|intros e; apply sim_error_exit].
  unfold call_and_interpret.
  do 3 (apply sim_bind; [apply sim_refl|intros ?]).
  apply sim_interpret_response.
Qed.

Lemma sim_process_body a s :
  debug_sim (process_body E true a s) (process_body E false a s).
Proof.
  unfold process_body.
  destruct a as [ann|]; [|apply sim_error_exit].
  destruct s as [snd|]; [|apply sim_error_exit].
  destruct (empty_array snd); [apply sim_error_exit|].
  destruct (boxes ann) as [[|box rest]|]; try apply sim_error_exit.
  do 2 (apply sim_bind; [apply sim_refl|intros _]). apply sim_generate.
Qed.

End DebugSim.

(** X13: the debug flag changes nothing but the status text: with and
    without it an invocation leaves the same world and ends the same way,
    returning the same image; the status of the run with the flag is the
    status of the run without it, or that status followed by
    "\n\nDebug Info:\n" and a trace. *)
Theorem debug_flag_only_extends_status E a s w :
  (process_images E a s true w).2 = (process_images E a s false w).2 /\
  match (process_images E a s true w).1, (process_images E a s false w).1 with
  | Return (v1, s1), Return (v0, s0) =>
      v1 = v0 /\
      (s1 = s0 \/
       exists trace,
         s1 = s0 +:+ nl +:+ nl +:+ "Debug Info:" +:+ nl +:+ String.concat nl trace)
  | Raise e1, Raise e0 => e1 = e0
  | Normal _, Normal _ => True
  | _, _ => False
  end.
Proof.
  assert (Hsim : debug_sim (process_images_body E true a s)
                           (process_images_body E false a s)).
  { unfold process_images_body.
    do 3 (apply sim_bind; [apply sim_refl|intros ?]).
    apply sim_try_except; [apply sim_process_body|intros e; apply sim_error_exit]. }
  unfold process_images, run.
  destruct (Hsim {| world := w; debug_info := [] |}) as [Hc Hf].
  destruct (process_images_body E true a s _) as [c1 f1],
           (process_images_body E false a s _) as [c0 f0].
  simpl in *. subst f1. split; [reflexivity|].
  destruct c1 as [[]|[v1 s1]|e1], c0 as [[]|[v0 s0]|e0]; simpl in Hc; auto.
Qed.

(** * Failures of the clean-up *)

Section Unlink.

Variable E : Env.
Variable u : nat -> option exn.
Variable d : bool.

Lemma same_outcome_refl {A} (x : completion retval A * Frame) : same_outcome x x.
Proof. repeat split. Qed.

Lemma same_outcome_bind {A B} (m1 m2 : py retval A) (k1 k2 : A -> py retval B) f :
  (forall f0, m1 f0 = m2 f0) ->
  (forall a f', same_outcome (k1 a f') (k2 a f')) ->
  same_outcome ((m1 ≫= k1) f) ((m2 ≫= k2) f).
Proof.
  intros Hm Hk. rewrite !bind_run, Hm.
  destruct (m2 f) as [[a|r|e] f']; [apply Hk | apply same_outcome_refl..].
Qed.

Lemma same_outcome_try_except {A} (b1 b2 : py retval A) (h : exn -> py retval A) f :
  same_outcome (b1 f) (b2 f) ->
  same_outcome (try_except b1 h f) (try_except b2 h f).
Proof.
  intros (Hc & Hst & Hcalls & Hraise). unfold try_except.
  destruct (b1 f) as [c1 f1], (b2 f) as [c2 f2]. simpl in *. subst c2.
  destruct c1 as [a|r|e]; try (repeat split; simpl; auto; discriminate).
  rewrite (Hraise e eq_refl). apply same_outcome_refl.
Qed.

(** The call stage returns the same whether or not [os.unlink] fails. *)
Lemma call_stage_unlink box im1 im2 n1 n2 f :
  same_outcome (call_stage (with_unlink E u) d box im1 im2 n1 n2 f)
               (call_stage E d box im1 im2 n1 n2 f).
Proof.
  destruct (call_stage_returns E d box im1 im2 n1 n2 f) as (r & f' & Hret).
  revert Hret. unfold call_stage, try_finally.
  change (call_and_interpret (with_unlink E u) d) with (call_and_interpret E d).
  destruct (try_except (call_and_interpret E d (enhanced_prompt box) im1 im2) _ f)
    as [c f1].
  destruct (cleanup_normal E n1 n2 f1) as (f2 & Hc & Hst).
  destruct (cleanup_normal (with_unlink E u) n1 n2 f1) as (f2' & Hc' & Hst').
  pose proof (steps_cleanup same_calls (fun w t => eq_refl) E n1 n2 f1) as Hcalls.
  pose proof (steps_cleanup same_calls (fun w t => eq_refl) (with_unlink E u) n1 n2 f1)
    as Hcalls'.
  rewrite Hc in *. rewrite Hc' in *. simpl in Hcalls, Hcalls'.
  intros [= -> _]. unfold same_store, same_calls in *.
  repeat split; simpl; try congruence; discriminate.
Qed.

Lemma generate_unlink ann snd box f :
  same_outcome (generate (with_unlink E u) d ann snd box f)
               (generate E d ann snd box f).
Proof.
  unfold generate. cbn [GOOGLE_API_KEY with_unlink].
  destruct (GOOGLE_API_KEY E) as [[|c k]|]; try apply same_outcome_refl.
  do 7 (apply same_outcome_bind; [reflexivity|intros ? ?]).
  apply call_stage_unlink.
Qed.

Lemma process_body_unlink a s f :
  same_outcome (process_body (with_unlink E u) d a s f) (process_body E d a s f).
Proof.
  unfold process_body.
  destruct a as [ann|]; [|apply same_outcome_refl].
  destruct s as [snd|]; [|apply same_outcome_refl].
  destruct (empty_array snd); [apply same_outcome_refl|].
  destruct (boxes ann) as [[|box rest]|]; try apply same_outcome_refl.
  do 2 (apply same_outcome_bind; [reflexivity|intros ? ?]).
  apply generate_unlink.
Qed.

End Unlink.

(** X14: a failure of [os.unlink] in the clean-up never surfaces: two
    environments that differ only in what [os.unlink] answers give the same
    returned image and status (or the same exception), the same result store
    and the same calls. *)
Theorem cleanup_failure_never_surfaces E u a s d w :
  (process_images (with_unlink E u) a s d w).1 = (process_images E a s d w).1 /\
  result_store (process_images (with_unlink E u) a s d w).2
  = result_store (process_images E a s d w).2 /\
  api_calls (process_images (with_unlink E u) a s d w).2
  = api_calls (process_images E a s d w).2.
Proof.
  assert (H : same_outcome
                (process_images_body (with_unlink E u) d a s
                   {| world := w; debug_info := [] |})
                (process_images_body E d a s {| world := w; debug_info := [] |})).
  { unfold process_images_body.
    do 3 (apply same_outcome_bind; [reflexivity|intros ? ?]).
    apply same_outcome_try_except, process_body_unlink. }
  unfold process_images, run.
  destruct H as (Hc & Hst & Hcalls & _).
  destruct (process_images_body (with_unlink E u) d a s _) as [c1 f1],
           (process_images_body E d a s _) as [c2 f2].
  simpl in *. auto.
Qed.

(** X15: when [os.unlink] fails on the first temporary file, the clean-up
    stops there: the second file is not unlinked either, and both files,
    with the encoded images in them, are still in the temporary directory
    after the invocation. *)
Theorem first_unlink_failure_keeps_both E d ann snd box rest w im1 im2 e :
  boxes ann = Some (box :: rest) -> empty_array snd = false ->
  call_reached E ann snd im1 im2 ->
  unlink_error E (fresh (dom (tmp_files w))) = Some e ->
  exists n2 enc1 enc2,
    n2 <> fresh (dom (tmp_files w)) /\
    tmp_files w !! fresh (dom (tmp_files w)) = None /\
    tmp_files w !! n2 = None /\
    png_encode E None im1 = Ok enc1 /\ png_encode E None im2 = Ok enc2 /\
    tmp_files (process_images E (Some ann) (Some snd) d w).2
    = <[n2 := enc2]> (<[fresh (dom (tmp_files w)) := enc1]> (tmp_files w)).
Proof.
  intros Hb He Hreach Hfail.
  destruct (process_images_of_generate E d ann snd box rest w Hb He)
    as (f0 & Hw & Hworld & _).
  destruct (generate_reaches_call E d ann snd box f0 im1 im2 Hreach)
    as (enc1 & enc2 & n1 & n2 & f1 & Hgen & Hn1 & Hn2 & Hne & Hw1
        & Hfresh & Henc1 & Henc2).
  rewrite Hw in *. subst n1.
  exists n2, enc1, enc2.
  split; [intros Heq; apply Hne; symmetry; exact Heq|].
  split; [exact Hn1|]. split; [exact Hn2|].
  split; [exact Henc1|]. split; [exact Henc2|].
  rewrite Hworld, Hgen.
  rewrite (call_stage_tmp_stuck E d box im1 im2 _ n2 f1 e).
  - rewrite Hw1. reflexivity.
  - rewrite Hw1. cbn [tmp_files].
    rewrite lookup_insert_ne, lookup_insert_eq by (intros ->; contradiction).
    eauto.
  - exact Hfail.
Qed.

Lemma first_unlink_failure_keeps_both_witness :
  exists n2 enc1 enc2,
    n2 <> fresh (dom (tmp_files empty_world)) /\
    tmp_files empty_world !! fresh (dom (tmp_files empty_world)) = None /\
    tmp_files empty_world !! n2 = None /\
    sample_encode sample_rgb = Ok enc1 /\ sample_encode sample_rgb = Ok enc2 /\
    tmp_files
      (process_images
         (with_unlink (sample_env (Some "key") (Ok (response_of [text_part "no"])))
            (fun _ => Some (Exception "PermissionError" "[Errno 13] Permission denied")))
         (Some (sample_annotation [sample_box])) (Some (NdArray sample_array))
         false empty_world).2
    = <[n2 := enc2]> (<[fresh (dom (tmp_files empty_world)) := enc1]>
                        (tmp_files empty_world)).
Proof.
  apply (first_unlink_failure_keeps_both
           (with_unlink (sample_env (Some "key") (Ok (response_of [text_part "no"])))
              (fun _ => Some (Exception "PermissionError" "[Errno 13] Permission denied")))
           false (sample_annotation [sample_box]) (NdArray sample_array)
           sample_box [] empty_world sample_rgb sample_rgb
           (Exception "PermissionError" "[Errno 13] Permission denied"));
    try reflexivity.
  exact (sample_call_reached "key" (Ok (response_of [text_part "no"]))
           ltac:(discriminate)).
Defined.

Lemma saved_file_outlives_reopen_failure_witness :
  exists trace w',
    process_images unreadable_env
      (Some (sample_annotation [sample_box])) (Some (NdArray sample_array))
      false empty_world =
    (Return (PyNone,
             status_with_debug false
               ("Failed to process generated image: " +:+ "cannot identify image file")
               trace),
     w') /\
    result_store w' = Some [Byte.x01].
Proof.
  apply (saved_file_outlives_reopen_failure unreadable_env false
           (sample_annotation [sample_box]) (NdArray sample_array) sample_box []
           empty_world (response_of [data_part [Byte.x02]])
           (candidate_of [data_part [Byte.x02]]) [] [data_part [Byte.x02]]
           (data_part [Byte.x02])
           {| data := Some [Byte.x02]; mime_type := Some "image/png" |}
           [Byte.x02] sample_rgba
           (paste_mask (Image_new "RGB" (2, 1)%nat white) sample_rgba
              (last_band sample_rgba))
           [Byte.x01]
           (Exception "UnidentifiedImageError" "cannot identify image file"));
    try reflexivity.
  exists "key", (Pil sample_rgb), sample_rgb, [Byte.x01], sample_rgb, [Byte.x01].
  repeat split; try reflexivity. discriminate.
Defined.

(** * Opaque pixels *)

Lemma normalize_output_rgba E im :
  mode im = "RGBA" ->
  normalize_output E im
  = Ok (paste_mask (Image_new "RGB" (im_size im) white) im (last_band im)).
Proof.
  intros Hm. unfold normalize_output. rewrite Hm.
  cbn [str_in existsb String.eqb Ascii.eqb Bool.eqb orb andb]. rewrite Hm.
  reflexivity.
Qed.

(** X16: normalising an "RGBA" image leaves its opaque pixels as they are:
    a pixel with alpha 255 comes out with its three colour bands unchanged
    (its alpha band dropped). *)
Theorem opaque_pixels_kept E im i r g b :
  wf_image im -> mode im = "RGBA" ->
  pixels im !! i = Some [r; g; b; 255] ->
  0 <= r <= 255 -> 0 <= g <= 255 -> 0 <= b <= 255 ->
  exists out, normalize_output E im = Ok out /\ pixels out !! i = Some [r; g; b].
Proof.
  intros Hwf Hm Hi Hr Hg Hb. eexists. split; [apply normalize_output_rgba, Hm|].
  destruct (composite_rgba im Hwf Hm) as (_ & _ & _ & Hpx).
  rewrite Hpx, list_lookup_fmap, Hi. cbn [fmap option_fmap option_map].
  unfold over_white, blend_pixel, white. cbn [List.last zip_with].
  rewrite !BLEND8_opaque by assumption. reflexivity.
Qed.

Lemma opaque_pixels_kept_witness :
  exists out,
    normalize_output (sample_env None (Ok (response_of []))) sample_rgba = Ok out /\
    pixels out !! 1%nat = Some [40; 50; 60].
Proof.
  apply (opaque_pixels_kept (sample_env None (Ok (response_of []))) sample_rgba
           1%nat 40 50 60);
    try reflexivity; try lia.
  apply sample_rgba_wf.
Defined.

(** * The prompt carries the bounds *)

Lemma append_cons (x : ascii) (a b : string) :
  String x a +:+ b = String x (a +:+ b).
Proof. reflexivity. Qed.

Lemma append_assoc_str (a b c : string) : (a +:+ b) +:+ c = a +:+ (b +:+ c).
Proof.
  induction a as [|x a IH]; [reflexivity|].
  rewrite !append_cons. f_equal. exact IH.
Qed.

(** Two strings that end at the first occurrence of a character they do not
    contain are equal when what they begin is. *)
Lemma split_at_delimiter (P : ascii -> bool) (c : ascii) : forall u u' r r',
  all_chars P u = true -> all_chars P u' = true -> P c = false ->
  u +:+ String c r = u' +:+ String c r' -> u = u' /\ r = r'.
Proof.
  induction u as [|x u IH]; intros [|x' u'] r r' Hu Hu' Hc Heq;
    rewrite ?append_cons in Heq; cbn [all_chars] in *.
  - change (String c r = String c r') in Heq. injection Heq as ->. auto.
  - change (String c r = String x' (u' +:+ String c r')) in Heq.
    injection Heq as <- _. apply andb_true_iff in Hu' as [Hx _]. congruence.
  - change (String x (u +:+ String c r) = String c r') in Heq.
    injection Heq as -> _. apply andb_true_iff in Hu as [Hx _]. congruence.
  - injection Heq as <- Heq.
    apply andb_true_iff in Hu as [_ Hu]. apply andb_true_iff in Hu' as [_ Hu'].
    destruct (IH u' r r' Hu Hu' Hc Heq) as [-> ->]. auto.
Qed.

Lemma pretty_N_char_token (x : N) : token_char (pretty_N_char x) = true.
Proof. unfold pretty_N_char. repeat case_match; reflexivity. Qed.

Lemma pretty_N_char_not_N (x : N) : pretty_N_char x <> "N"%char.
Proof. unfold pretty_N_char. repeat case_match; discriminate. Qed.

Lemma pretty_N_go_token (x : N) : forall s,
  all_chars token_char s = true -> all_chars token_char (pretty_N_go x s) = true.
Proof.
  induction (N.lt_wf_0 x) as [x _ IH]; intros s Hs.
  assert (x = 0 \/ 0 < x)%N as [->|Hx] by lia.
  - rewrite pretty_N_go_0. exact Hs.
  - rewrite pretty_N_go_step by exact Hx. apply IH.
    + apply N.div_lt; [exact Hx | reflexivity].
    + simpl. rewrite pretty_N_char_token. exact Hs.
Qed.

Lemma pretty_N_token (x : N) : all_chars token_char (pretty x) = true.
Proof.
  unfold pretty, pretty_N. case_decide; [reflexivity|].
  apply pretty_N_go_token. reflexivity.
Qed.

Lemma pretty_Z_token (z : Z) : all_chars token_char (pretty z) = true.
Proof.
  destruct z as [|p|p]; unfold pretty, pretty_Z; [reflexivity| |].
  - apply pretty_N_token.
  - simpl. apply pretty_N_token.
Qed.

Lemma py_str_int_token (x : option Z) : all_chars token_char (py_str_int x) = true.
Proof. destruct x as [z|]; [apply pretty_Z_token | reflexivity]. Qed.

(** A printed integer does not begin with "N". *)
Lemma pretty_N_go_not_N (x : N) : forall s r,
  (forall r', s <> String "N" r') -> pretty_N_go x s <> String "N" r.
Proof.
  induction (N.lt_wf_0 x) as [x _ IH]; intros s r Hs.
  assert (x = 0 \/ 0 < x)%N as [->|Hx] by lia.
  - rewrite pretty_N_go_0. apply Hs.
  - rewrite pretty_N_go_step by exact Hx. apply IH.
    + apply N.div_lt; [exact Hx | reflexivity].
    + intros r' [= Hc _]. exact (pretty_N_char_not_N _ Hc).
Qed.

Lemma pretty_Z_not_None (z : Z) : pretty z <> "None".
Proof.
  destruct z as [|p|p]; unfold pretty, pretty_Z; try discriminate.
  unfold pretty, pretty_positive, pretty, pretty_N. case_decide; [discriminate|].
  apply pretty_N_go_not_N. discriminate.
Qed.

Lemma py_str_int_inj (x y : option Z) : py_str_int x = py_str_int y -> x = y.
Proof.
  destruct x as [a|], y as [b|]; simpl; intros H.
  - f_equal. apply (inj pretty). exact H.
  - destruct (pretty_Z_not_None a H).
  - symmetry in H. destruct (pretty_Z_not_None b H).
  - reflexivity.
Qed.

(** X17: the prompt carries the bounds without loss: two boxes get the same
    prompt only if their four bounds are the same (a bound that is absent,
    printed "None", counts as a value of its own). *)
Theorem prompt_determines_bounds (b1 b2 : Box) :
  enhanced_prompt b1 = enhanced_prompt b2 -> bounds b1 = bounds b2.
Proof.
  unfold enhanced_prompt, prompt_template, join_lines, bounds.
  cbn [String.concat]. rewrite !append_assoc_str. intros H.
  do 7 apply (inj (String.append _)) in H.
  change (", " +:+ ?r) with (String "," (String " " r)) in H.
  apply (split_at_delimiter token_char) in H as [Hx1 H];
    [|apply py_str_int_token..|reflexivity].
  injection H as H.
  change (")  " +:+ ?r) with (String ")" (String " " (String " " r))) in H.
  apply (split_at_delimiter token_char) in H as [Hy1 H];
    [|apply py_str_int_token..|reflexivity].
  injection H as H.
  change (", " +:+ ?r) with (String "," (String " " r)) in H.
  apply (split_at_delimiter token_char) in H as [Hx2 H];
    [|apply py_str_int_token..|reflexivity].
  injection H as H.
  change (")" +:+ ?r) with (String ")" r) in H.
  apply (split_at_delimiter token_char) in H as [Hy2 _];
    [|apply py_str_int_token..|reflexivity].
  apply py_str_int_inj in Hx1, Hy1, Hx2, Hy2. congruence.
Qed.

Lemma prompt_determines_bounds_witness :
  enhanced_prompt sample_box = enhanced_prompt sample_box /\
  bounds sample_box = bounds sample_box.
Proof.
  split; [reflexivity | apply (prompt_determines_bounds sample_box sample_box); reflexivity].
Defined.
